(** * next-drupal: the resource-resolution core of [Unstable_DrupalClient]

    A shallow embedding of [packages/next-drupal/src/client.ts] and the
    properties of its request orchestration, URL building, menu-tree
    building, static-path building and access-token caching.

    Conventions of the embedding.
    - A JavaScript string is a [string]: a sequence of characters.  All
      the string operations of the client look for ASCII characters
      ([/], [?], [-]) only.
    - An optional argument or option key is an [option]; [undefined]
      as a value is [JUndefined].
    - A JavaScript object whose key order matters (query parameters) is
      an association list in insertion order.
    - [async] methods are run to completion one after the other; the
      client state, the clock and the transports are threaded through a
      state-and-exception monad.
    - The [_debug] calls only log and are left out. *)

From Stdlib Require Import String Ascii List ZArith Bool Arith Lia.
From Stdlib Require Import DecimalString.
Import ListNotations.

#[local] Open Scope list_scope.
#[local] Open Scope string_scope.

(* ================================================================== *)
(** ** JavaScript string primitives used by the client *)
(* ================================================================== *)

Module Js.

Definition slash : ascii := "/"%char.

(** [s.charAt(0) === "/"] *)
Definition starts_with_slash (s : string) : bool :=
  match s with
  | String c _ => Ascii.eqb c slash
  | EmptyString => false
  end.

(** [s.slice(-1) !== "/"] is [negb (ends_with_slash s)] *)
Fixpoint ends_with_slash (s : string) : bool :=
  match s with
  | EmptyString => false
  | String c EmptyString => Ascii.eqb c slash
  | String _ s' => ends_with_slash s'
  end.

(** JavaScript truthiness of a string: non-empty. *)
Definition truthy_str (s : string) : bool :=
  match s with EmptyString => false | _ => true end.

(** Truthiness of an optional string ([undefined] is falsy). *)
Definition truthy_opt (o : option string) : bool :=
  match o with Some s => truthy_str s | None => false end.

(** [s.replace(/^\//, "")]: drops one leading slash. *)
Definition drop_leading_slash (s : string) : string :=
  match s with
  | String c s' => if Ascii.eqb c slash then s' else s
  | EmptyString => EmptyString
  end.

(** [s.replace(/\/$/, "")]: drops one trailing slash. *)
Fixpoint drop_trailing_slash (s : string) : string :=
  match s with
  | EmptyString => EmptyString
  | String c EmptyString =>
      if Ascii.eqb c slash then EmptyString else s
  | String c s' => String c (drop_trailing_slash s')
  end.

(** [s.replace(/^\/|\/$/g, "")]: the global flag makes the regular
    expression match once at the start (a leading slash) and once at
    the end (a trailing slash of what follows). *)
Definition trim_slashes (s : string) : string :=
  drop_trailing_slash (drop_leading_slash s).

(** [s.replace(/^\/+/, "")]: drops every leading slash. *)
Fixpoint drop_leading_slashes (s : string) : string :=
  match s with
  | String c s' => if Ascii.eqb c slash then drop_leading_slashes s' else s
  | EmptyString => EmptyString
  end.

(** [s.slice(n)] for [0 <= n]. *)
Fixpoint drop (n : nat) (s : string) : string :=
  match n, s with
  | O, _ => s
  | S n', String _ s' => drop n' s'
  | S _, EmptyString => EmptyString
  end.

(** [s.indexOf(pat)]: position of the first occurrence, [None] for -1. *)
Fixpoint indexOf (pat s : string) : option nat :=
  if String.prefix pat s then Some O
  else match s with
       | EmptyString => None
       | String _ s' => option_map S (indexOf pat s')
       end.

(** [s.replace(pat, repl)] with a string pattern: only the first
    occurrence is replaced.  ([repl] never holds a [$] pattern in the
    client: it is always the empty string.) *)
Fixpoint replace_first (pat repl s : string) : string :=
  if String.prefix pat s then repl ++ drop (String.length pat) s
  else match s with
       | EmptyString => EmptyString
       | String c s' => String c (replace_first pat repl s')
       end.

(** [s.split("/")]: always at least one segment. *)
Fixpoint split_slash_aux (cur : string) (s : string) : list string :=
  match s with
  | EmptyString => [cur]
  | String c s' =>
      if Ascii.eqb c slash then cur :: split_slash_aux EmptyString s'
      else split_slash_aux (cur ++ String c EmptyString) s'
  end.

Definition split_slash (s : string) : list string :=
  split_slash_aux EmptyString s.


(** [l.join(sep)] *)
Fixpoint join (sep : string) (l : list string) : string :=
  match l with
  | [] => EmptyString
  | [x] => x
  | x :: rest => x ++ sep ++ join sep rest
  end.

End Js.

(* ================================================================== *)
(** ** StaticPathBuilder *)
(* ================================================================== *)

(** [{ params: { slug }, locale? }] *)
Record StaticPathEntry := mkEntry {
  slug : list string;
  entry_locale : option string
}.

(** [options?: { prefix?: PathPrefix; locale?: Locale }] *)
Record PathOptions := mkPathOptions {
  opt_prefix : option string;
  opt_locale : option string
}.

(** The body of the [flatMap] callback up to the split: slashes
    trimmed, then, when [options?.prefix] is truthy,
    [_path.replace(`${prefix}/`, "")] with the prefix's own leading
    slash dropped. *)
Definition strip_prefix (options : PathOptions) (_path : string) : string :=
  let _path := Js.trim_slashes _path in
  match opt_prefix options with
  | Some p =>
      if Js.truthy_str p
      then Js.replace_first (Js.drop_leading_slash p ++ "/") "" _path
      else _path
  | None => _path
  end.

Definition static_path_entry (options : PathOptions) (_path : string)
  : StaticPathEntry :=
  {| slug := Js.split_slash (strip_prefix options _path);
     entry_locale :=
       match opt_locale options with
       | Some l => if Js.truthy_str l then Some l else None
       | None => None
       end |}.

(** [buildStaticPathsParamsFromPaths(paths, options)].  The callback
    returns an object, so [flatMap] behaves as [map]. *)
Definition buildStaticPathsParamsFromPaths
  (paths : list string) (options : PathOptions) : list StaticPathEntry :=
  map (static_path_entry options) paths.

(* ================================================================== *)
(** ** JavaScript values *)
(* ================================================================== *)

(** The values the client handles: what [JSON.parse] produces, plus
    [undefined].  Numbers are restricted to integers (the client only
    multiplies a time-to-live and prints status codes). *)
#[warnings="-register-all"]
Inductive value : Type :=
| JUndefined
| JNull
| JBool (b : bool)
| JNum (n : Z)
| JStr (s : string)
| JArr (elems : list value)
| JObj (fields : list (string * value)).

(** What a [throw] carries.  [Error] is [new Error(message)]; the other
    three are raised by the engine, whose message text is not
    modelled.  [RangeError] is the call stack running out. *)
Inductive JsError : Type :=
| Error (message : string)
| TypeError
| SyntaxError
| RangeError.

Inductive Outcome (A : Type) : Type :=
| Ok (a : A)
| Throw (e : JsError).
Arguments Ok {A} a.
Arguments Throw {A} e.

Module Val.

Definition newline : string := String (ascii_of_nat 10) EmptyString.

Definition dec (n : Z) : string :=
  DecimalString.NilZero.string_of_int (Z.to_int n).

(** Own properties as an association list, first binding wins. *)
Fixpoint assoc {A : Type} (k : string) (l : list (string * A)) : option A :=
  match l with
  | [] => None
  | (k', v) :: rest => if String.eqb k k' then Some v else assoc k rest
  end.

Definition has_key {A : Type} (k : string) (l : list (string * A)) : bool :=
  match assoc k l with Some _ => true | None => false end.

(** [obj[k] = v]: overwrites in place or appends a new key. *)
Fixpoint set {A : Type} (k : string) (v : A) (l : list (string * A))
  : list (string * A) :=
  match l with
  | [] => [(k, v)]
  | (k', v') :: rest =>
      if String.eqb k k' then (k, v) :: rest else (k', v') :: set k v rest
  end.

(** [const { k: _, ...rest } = obj]: the object without key [k]. *)
Fixpoint remove {A : Type} (k : string) (l : list (string * A))
  : list (string * A) :=
  match l with
  | [] => []
  | (k', v') :: rest =>
      if String.eqb k k' then remove k rest else (k', v') :: remove k rest
  end.

(** [{ ...a, ...b }] *)
Definition spread {A : Type} (a b : list (string * A)) : list (string * A) :=
  fold_left (fun acc kv => set (fst kv) (snd kv) acc) b a.

(** JavaScript truthiness. *)
Definition truthy (v : value) : bool :=
  match v with
  | JUndefined | JNull => false
  | JBool b => b
  | JNum n => negb (Z.eqb n 0)
  | JStr s => Js.truthy_str s
  | JArr _ | JObj _ => true
  end.

Definition nullish (v : value) : bool :=
  match v with JUndefined | JNull => true | _ => false end.

(** [v?.k]: property read, [undefined] on a nullish receiver.  Of the
    built-in properties only [length] is given to strings and
    arrays. *)
Definition get (k : string) (v : value) : value :=
  match v with
  | JObj fs => match assoc k fs with Some x => x | None => JUndefined end
  | JArr l =>
      if String.eqb k "length" then JNum (Z.of_nat (List.length l))
      else JUndefined
  | JStr s =>
      if String.eqb k "length" then JNum (Z.of_nat (String.length s))
      else JUndefined
  | _ => JUndefined
  end.

(** [v.k]: as [get], but a nullish receiver raises a [TypeError]. *)
Definition get_strict (k : string) (v : value) : Outcome value :=
  if nullish v then Throw TypeError else Ok (get k v).

(** [a === b].  Objects and arrays are compared by reference; the
    values met here come out of [JSON.parse], which shares nothing,
    so two of them are never the same reference. *)
Definition strict_eq (a b : value) : bool :=
  match a, b with
  | JUndefined, JUndefined => true
  | JNull, JNull => true
  | JBool x, JBool y => Bool.eqb x y
  | JNum x, JNum y => Z.eqb x y
  | JStr x, JStr y => String.eqb x y
  | _, _ => false
  end.

(** [String(v)], as a template literal [`${v}`] applies it. *)
Fixpoint to_str (v : value) : string :=
  match v with
  | JUndefined => "undefined"
  | JNull => "null"
  | JBool true => "true"
  | JBool false => "false"
  | JNum n => dec n
  | JStr s => s
  | JArr l =>
      Js.join ","
        (map (fun x => if nullish x then EmptyString else to_str x) l)
  | JObj _ => "[object Object]"
  end.

(** The message of [new Error(v)]: empty for [undefined]. *)
Definition error_message (v : value) : string :=
  match v with JUndefined => EmptyString | _ => to_str v end.

End Val.

(* ================================================================== *)
(** ** UrlBuilder *)
(* ================================================================== *)

Module Qs.

Definition hex_digit (n : nat) : ascii :=
  match n with
  | 0 => "0" | 1 => "1" | 2 => "2" | 3 => "3" | 4 => "4" | 5 => "5"
  | 6 => "6" | 7 => "7" | 8 => "8" | 9 => "9" | 10 => "A" | 11 => "B"
  | 12 => "C" | 13 => "D" | 14 => "E" | _ => "F"
  end%char.

(** Characters left as they are: letters, digits, [-], [.], [_], [~]. *)
Definition unreserved (c : ascii) : bool :=
  let n := nat_of_ascii c in
  (((48 <=? n) && (n <=? 57)) || ((65 <=? n) && (n <=? 90))
   || ((97 <=? n) && (n <=? 122))
   || (n =? 45) || (n =? 46) || (n =? 95) || (n =? 126))%nat.

Fixpoint encode (s : string) : string :=
  match s with
  | EmptyString => EmptyString
  | String c s' =>
      if unreserved c then String c (encode s')
      else
        let n := nat_of_ascii c in
        String "%"%char
          (String (hex_digit (n / 16))
             (String (hex_digit (n mod 16)) (encode s')))
  end.

(** The [key=value] pairs one property contributes: nested objects
    and arrays extend the key with [[k]] or [[i]]; [undefined] is
    skipped, [null] gives an empty value. *)
Fixpoint entries (key : string) (v : value) {struct v} : list string :=
  match v with
  | JUndefined => []
  | JNull => [encode key ++ "="]
  | JBool _ | JNum _ | JStr _ =>
      [encode key ++ "=" ++ encode (Val.to_str v)]
  | JArr l =>
      (fix go (i : nat) (l : list value) : list string :=
         match l with
         | [] => []
         | x :: rest =>
             (entries (key ++ "[" ++ Val.dec (Z.of_nat i) ++ "]") x
              ++ go (S i) rest)%list
         end) 0 l
  | JObj fs =>
      (fix go (fs : list (string * value)) : list string :=
         match fs with
         | [] => []
         | (k, x) :: rest =>
             (entries (key ++ "[" ++ k ++ "]") x ++ go rest)%list
         end) fs
  end.

(** Modelled from the spec: the [stringify] function of the [qs]
    package, which the client imports and which is not part of the
    repository.  Section 4.3 of the specification: query parameters
    are encoded in nested bracket notation, and its testable property
    shows the brackets percent-encoded.  This follows the package's
    default options: keys and values percent-encoded, pairs joined by
    [&], no leading [?], the empty string for anything that is not an
    object. *)
Definition stringify (v : value) : string :=
  match v with
  | JObj fs =>
      Js.join "&" (flat_map (fun kv => entries (fst kv) (snd kv)) fs)
  | _ => EmptyString
  end.

End Qs.

(** A parsed [URL]: the text before the query, the query without its
    [?], and the fragment with its [#].  The scheme, host and path are
    kept as written: the platform's validation and normalisation of
    them is not modelled, the base URL being a well-formed absolute
    URL by the constructor's contract. *)
Record URL := mkURL {
  url_origin_path : string;
  url_search : string;
  url_hash : string
}.

Module Url.

(** Splits [s] at the first occurrence of character [c]; the second
    component keeps [c]. *)
Fixpoint break_at (c : ascii) (s : string) : string * string :=
  match s with
  | EmptyString => (EmptyString, EmptyString)
  | String d s' =>
      if Ascii.eqb d c then (EmptyString, s)
      else let (a, b) := break_at c s' in (String d a, b)
  end.


(** [new URL(s)] *)
Definition parse (s : string) : URL :=
  let (before_hash, hash) := break_at "#"%char s in
  let (before_query, query) := break_at "?"%char before_hash in
  {| url_origin_path := before_query;
     url_search := Js.drop 1 query;
     url_hash := if String.eqb hash "#" then EmptyString else hash |}.

(** [url.search = q] *)
Definition set_search (q : string) (u : URL) : URL :=
  {| url_origin_path := url_origin_path u;
     url_search :=
       match q with
       | String "?"%char q' => q'
       | _ => q
       end;
     url_hash := url_hash u |}.

(** [url.toString()] *)
Definition toString (u : URL) : string :=
  url_origin_path u
  ++ (if Js.truthy_str (url_search u) then "?" ++ url_search u
      else EmptyString)
  ++ url_hash u.

End Url.

(** [params?: string | Record<string, string> | JsonApiParams]: absent,
    a string, a plain object, or an object with a [getQueryObject]
    method (given by what the method returns). *)
Inductive Params : Type :=
| ParamsAbsent
| ParamsString (s : string)
| ParamsObject (fields : list (string * value))
| ParamsBuilder (queryObject : value).

(** [buildUrl(path, params)] for a client whose base URL is [baseUrl].
    A plain object that happens to hold a [getQueryObject] key passes
    the [in] test and is then called, which raises a [TypeError]. *)
Definition buildUrl (baseUrl : string) (path : string) (params : Params)
  : Outcome URL :=
  let url :=
    Url.parse (if Js.starts_with_slash path then baseUrl ++ path else path) in
  let flattened : Outcome value :=
    match params with
    | ParamsAbsent => Ok JUndefined
    | ParamsString s => Ok (JStr s)
    | ParamsObject fs =>
        if Val.has_key "getQueryObject" fs then Throw TypeError
        else Ok (JObj fs)
    | ParamsBuilder q => Ok q
    end in
  match flattened with
  | Throw e => Throw e
  | Ok params =>
      if Val.truthy params
      then Ok (Url.set_search (Qs.stringify params) url)
      else Ok url
  end.

(* ================================================================== *)
(** ** The platform: transports, clock, JSON parser *)
(* ================================================================== *)

(** The body handed to a transport: literal text, or
    [JSON.stringify(v)] given by the value [v] it serialises. *)
Inductive Body : Type :=
| BodyText (text : string)
| BodyJson (payload : value).

(** [FetchOptions]: the platform's [RequestInit] and [withAuth]. *)
Record FetchOptions := mkInit {
  init_method : option string;
  init_headers : list (string * string);
  init_body : option Body;
  init_credentials : option string;
  init_redirect : option string;
  init_withAuth : option bool
}.


(** One call of a [fetch(input, init)]. *)
Record Request := mkRequest {
  req_input : string;
  req_init : FetchOptions
}.

(** What the client reads of a [Response]: [content_type] is
    [headers.get("content-type")], [resp_body] the text that
    [response.json()] parses. *)
Record Response := mkResponse {
  resp_ok : bool;
  resp_status : Z;
  resp_statusText : string;
  content_type : option string;
  resp_body : string
}.

(** A transport answers a request, possibly depending on the requests
    made before it; it can also reject. *)
Definition Transport : Type := list Request -> Request -> Outcome Response.

(** What the client takes from its platform.  [JSON_parse] is
    [JSON.parse] ([None]: a [SyntaxError]); [Date_now k] is the [k]-th
    reading of [Date.now()]; [platform_fetch] is the global [fetch];
    [base64] is [Buffer.from(s).toString("base64")]. *)
Record Env := mkEnv {
  JSON_parse : string -> option value;
  Date_now : nat -> Z;
  platform_fetch : Transport;
  base64 : string -> string
}.

(* ================================================================== *)
(** ** The client *)
(* ================================================================== *)

(** [DrupalClientOptions["auth"]] as the [auth] setter leaves it:
    absent, a callback giving the [Authorization] header, or a
    client-credentials descriptor with its token endpoint. *)
Inductive Auth : Type :=
| AuthAbsent
| AuthCallback (header : string)
| AuthCredentials (clientId clientSecret url : string).

Record Client := mkClient {
  baseUrl : string;
  apiPrefix : string;
  frontPage : string;
  _headers : list (string * string);
  _auth : Auth;
  fetcher : option Transport;
  formatter_deserialize : value -> Outcome value;
  withAuth : bool;
  _token : value;
  tokenExpiresOn : option Z
}.

Definition DEFAULT_API_PREFIX : string := "/jsonapi".
Definition DEFAULT_FRONT_PAGE : string := "/home".
Definition DEFAULT_WITH_AUTH : bool := false.
Definition DEFAULT_AUTH_URL : string := "/oauth/token".
Definition DEFAULT_HEADERS : list (string * string) :=
  [("Content-Type", "application/vnd.api+json");
   ("Accept", "application/vnd.api+json")].

(** The state the methods run in: the client (its token cache is the
    only part that changes), the number of clock readings so far, the
    requests handed to a transport, and the calls of the client's own
    [fetch] method, as a spy on it would record them. *)
Record State := mkState {
  client : Client;
  ticks : nat;
  sent : list Request;
  calls : list Request
}.

Definition M (A : Type) : Type := State -> Outcome A * State.

Definition ret {A : Type} (a : A) : M A := fun st => (Ok a, st).

Definition throw {A : Type} (e : JsError) : M A := fun st => (Throw e, st).

Definition bind {A B : Type} (m : M A) (k : A -> M B) : M B :=
  fun st =>
    match m st with
    | (Ok a, st') => k a st'
    | (Throw e, st') => (Throw e, st')
    end.

Declare Scope js_scope.
Delimit Scope js_scope with js.
Notation "x <- m ;; k" := (bind m (fun x => k))
  (at level 61, m at next level, right associativity) : js_scope.
Notation "m ;;; k" := (bind m (fun _ => k))
  (at level 61, right associativity) : js_scope.
#[local] Open Scope js_scope.

Definition lift {A : Type} (o : Outcome A) : M A := fun st => (o, st).

Definition get_client : M Client := fun st => (Ok (client st), st).

Definition put_client (c : Client) : M unit :=
  fun st => (Ok tt, mkState c (ticks st) (sent st) (calls st)).

(** [Date.now()] *)
Definition now (env : Env) : M Z :=
  fun st =>
    (Ok (Date_now env (ticks st)),
     mkState (client st) (S (ticks st)) (sent st) (calls st)).

(** Hands a request to a transport and records it. *)
Definition dispatch (t : Transport) (r : Request) : M Response :=
  fun st =>
    (t (sent st) r,
     mkState (client st) (ticks st) (sent st ++ [r])%list (calls st)).

(** The state once a call of the client's [fetch] method is recorded. *)
Definition spied (st : State) (r : Request) : State :=
  mkState (client st) (ticks st) (sent st) (calls st ++ [r])%list.

(** Records a call of the client's [fetch] method. *)
Definition spy (r : Request) : M unit :=
  fun st => (Ok tt, spied st r).

(** [JSON.parse(v)]: the argument is converted to a string first. *)
Definition parse_json (env : Env) (v : value) : Outcome value :=
  match JSON_parse env (Val.to_str v) with
  | Some x => Ok x
  | None => Throw SyntaxError
  end.

(** [response.json()] *)
Definition response_json (env : Env) (r : Response) : Outcome value :=
  parse_json env (JStr (resp_body r)).

(** The number that [expires_in * 1000] makes of [expires_in]: [None]
    is [NaN].  The conversion of strings and arrays is not modelled,
    [AccessToken] declaring [expires_in: number]. *)
Definition to_number (v : value) : option Z :=
  match v with
  | JNum n => Some n
  | JNull => Some 0%Z
  | JBool b => Some (if b then 1%Z else 0%Z)
  | _ => None
  end.

(* ------------------------------------------------------------------ *)
(** *** AuthTokenManager *)

(** [private set token(token)] *)
Definition set_token (env : Env) (token : value) : M unit :=
  c <- get_client ;;
  put_client
    (mkClient (baseUrl c) (apiPrefix c) (frontPage c) (_headers c) (_auth c)
       (fetcher c) (formatter_deserialize c) (withAuth c)
       token (tokenExpiresOn c)) ;;;
  t <- now env ;;
  expires_in <- lift (Val.get_strict "expires_in" token) ;;
  c <- get_client ;;
  put_client
    (mkClient (baseUrl c) (apiPrefix c) (frontPage c) (_headers c) (_auth c)
       (fetcher c) (formatter_deserialize c) (withAuth c)
       (_token c)
       (option_map (fun ttl => (t + ttl * 1000)%Z) (to_number expires_in))).

(** [this._token && Date.now() < this.tokenExpiresOn]: the clock is
    read only when a token is cached. *)
Definition token_still_valid (env : Env) : M bool :=
  c <- get_client ;;
  if Val.truthy (_token c) then
    t <- now env ;;
    ret (match tokenExpiresOn c with
         | Some expiry => (t <? expiry)%Z
         | None => false
         end)
  else ret false.

Definition token_request (c : Client) (env : Env)
  (clientId clientSecret url : string) : Request :=
  mkRequest (baseUrl c ++ url)
    (mkInit (Some "POST")
       [("Authorization",
         "Basic " ++ base64 env (clientId ++ ":" ++ clientSecret));
        ("Content-Type", "application/x-www-form-urlencoded")]
       (Some (BodyText "grant_type=client_credentials"))
       None None None).

(** [getAccessToken()] *)
Definition getAccessToken (env : Env) : M value :=
  c <- get_client ;;
  match _auth c with
  | AuthCredentials clientId clientSecret url =>
      if negb (Js.truthy_str clientId) || negb (Js.truthy_str clientSecret)
      then throw (Error
        "'clientId' and 'clientSecret' required. See https://next-drupal.org/docs/client/auth")
      else
        valid <- token_still_valid env ;;
        if valid then ret (_token c)
        else
          response <- dispatch (platform_fetch env)
                        (token_request c env clientId clientSecret url) ;;
          if negb (resp_ok response)
          then throw (Error (resp_statusText response))
          else
            result <- lift (response_json env response) ;;
            set_token env result ;;;
            ret result
  | _ =>
      throw (Error
        "auth is not configured. See https://next-drupal.org/docs/client/auth")
  end.

(* ------------------------------------------------------------------ *)
(** *** RequestExecutor *)

(** [const [error] = errors]: the first element of an array (or the
    first character of a string), [undefined] when there is none; any
    other value is not iterable. *)
Definition first_of (errors : value) : Outcome value :=
  match errors with
  | JArr (e :: _) => Ok e
  | JArr [] => Ok JUndefined
  | JStr (String c _) => Ok (JStr (String c EmptyString))
  | JStr EmptyString => Ok JUndefined
  | _ => Throw TypeError
  end.

(** [formatJsonApiErrors(errors)] *)
Definition formatJsonApiErrors (errors : value) : Outcome string :=
  match first_of errors with
  | Throw e => Throw e
  | Ok error =>
      if Val.nullish error then Throw TypeError
      else
        let message :=
          Val.to_str (Val.get "status" error) ++ " "
          ++ Val.to_str (Val.get "title" error) in
        if Val.truthy (Val.get "detail" error)
        then Ok (message ++ Val.newline ++ Val.to_str (Val.get "detail" error))
        else Ok message
  end.

(** [formatErrorResponse(response)]: the value later given to
    [new Error]. *)
Definition formatErrorResponse (env : Env) (response : Response)
  : Outcome value :=
  let type := content_type response in
  if match type with
     | Some t => String.eqb t "application/json"
     | None => false
     end
  then
    match response_json env response with
    | Throw e => Throw e
    | Ok error => Val.get_strict "message" error
    end
  else if match type with
          | Some t => String.eqb t "application/vnd.api+json"
          | None => false
          end
  then
    match response_json env response with
    | Throw e => Throw e
    | Ok _error =>
        if Val.truthy (Val.get "length" (Val.get "errors" _error))
        then
          match formatJsonApiErrors (Val.get "errors" _error) with
          | Ok message => Ok (JStr message)
          | Throw e => Throw e
          end
        else Ok (JStr (resp_statusText response))
    end
  else Ok (JStr (resp_statusText response)).

Definition with_headers (h : list (string * string)) (init : FetchOptions)
  : FetchOptions :=
  mkInit (init_method init) h (init_body init) (init_credentials init)
    (init_redirect init) (init_withAuth init).

Definition truthy_flag (o : option bool) : bool :=
  match o with Some b => b | None => false end.

(** The [withAuth] part of [fetch]: sets the [Authorization] header. *)
Definition authorize (env : Env) (init : FetchOptions) : M FetchOptions :=
  if truthy_flag (init_withAuth init) then
    c <- get_client ;;
    match _auth c with
    | AuthCallback header =>
        ret (with_headers
               (Val.set "Authorization" header (init_headers init)) init)
    | _ =>
        token <- getAccessToken env ;;
        if Val.truthy token
        then ret (with_headers
                    (Val.set "Authorization"
                       ("Bearer " ++ Val.to_str (Val.get "access_token" token))
                       (init_headers init)) init)
        else ret init
    end
  else ret init.

(** The first half of [fetch]: the default headers merged under the
    call's own, and the [Authorization] header when asked for. *)
Definition prepare (env : Env) (input : string) (init : FetchOptions)
  : M FetchOptions :=
  spy (mkRequest input init) ;;;
  c <- get_client ;;
  authorize env
    (with_headers (Val.spread (_headers c) (init_headers init)) init).

(** [fetch(input, init)], the client's own method.  A custom fetcher's
    response is returned as it is; the default transport's response is
    returned only when [ok]. *)
Definition fetch (env : Env) (input : string) (init : FetchOptions)
  : M Response :=
  init <- prepare env input init ;;
  c <- get_client ;;
  match fetcher c with
  | Some custom => dispatch custom (mkRequest input init)
  | None =>
      response <- dispatch (platform_fetch env) (mkRequest input init) ;;
      if resp_ok response then ret response
      else
        message <- lift (formatErrorResponse env response) ;;
        throw (Error (Val.error_message message))
  end.

(** [deserialize(body)] *)
Definition deserialize (c : Client) (body : value) : Outcome value :=
  if negb (Val.truthy body) then Ok JNull
  else formatter_deserialize c body.

(* ------------------------------------------------------------------ *)
(** *** ResourceResolver *)

(** [context: GetStaticPropsContext] *)
Inductive Slug : Type :=
| SlugString (s : string)
| SlugArray (segments : list string).

Record Context := mkContext {
  ctx_slug : option Slug;
  ctx_locale : option string;
  ctx_defaultLocale : option string;
  ctx_preview : option bool;
  ctx_previewData : value
}.

(** The per-call options.  A key is either absent or holds a value. *)
Record ResourceOptions := mkOptions {
  o_deserialize : option bool;
  o_isVersionable : option bool;
  o_withAuth : option bool;
  o_locale : option string;
  o_defaultLocale : option string;
  o_params : option (list (string * value));
  o_prefix : option string
}.

Definition default_options : ResourceOptions :=
  mkOptions None None None None None None None.

Definition or_default {A : Type} (d : A) (o : option A) : A :=
  match o with Some a => a | None => d end.

(** [a !== b] on optional strings *)
Definition differ (a b : option string) : bool :=
  match a, b with
  | Some x, Some y => negb (String.eqb x y)
  | None, None => false
  | _, _ => true
  end.

(** [getPathFromContext(context, { prefix })] *)
Definition getPathFromContext (c : Client) (context : Context)
  (prefix : option string) : string :=
  let prefix := or_default "/" prefix in
  let prefix := if Js.starts_with_slash prefix then prefix else "/" ++ prefix in
  let prefix :=
    match ctx_locale context with
    | Some locale =>
        if Js.truthy_str locale
           && differ (ctx_locale context) (ctx_defaultLocale context)
        then "/" ++ locale ++ prefix
        else prefix
    | None => prefix
    end in
  let slug :=
    match ctx_slug context with
    | Some (SlugArray segments) => Js.join "/" segments
    | Some (SlugString s) => s
    | None => EmptyString
    end in
  let '(slug, prefix) :=
    if negb (Js.truthy_str slug)
    then (frontPage c, Js.drop_trailing_slash prefix)
    else (slug, prefix) in
  let slug :=
    if negb (Js.ends_with_slash prefix) && negb (Js.starts_with_slash slug)
    then "/" ++ slug else slug in
  prefix ++ slug.

(** The path sent to the router: rebuilt with the locale prefix when a
    locale and a default locale are given and the locale does not sit
    at index 1 of the path. *)
Definition localized_path (c : Client) (path : string)
  (locale defaultLocale : option string) : string :=
  match locale with
  | Some l =>
      if Js.truthy_str l && Js.truthy_opt defaultLocale
         && negb (match Js.indexOf l path with
                  | Some 1 => true
                  | _ => false
                  end)
      then
        let path :=
          if String.eqb path "/" then path else Js.drop_leading_slashes path in
        getPathFromContext c
          (mkContext (Some (SlugArray [path])) locale defaultLocale
             None JUndefined)
          None
      else path
  | None => path
  end.

(** Whether the resource is fetched as a versionable entity:
    [options.isVersionable], forced on by a truthy
    [params.resourceVersion]. *)
Definition versionable (isVersionable : bool)
  (params : list (string * value)) : bool :=
  if Val.truthy (or_default JUndefined (Val.assoc "resourceVersion" params))
  then true else isVersionable.

(** The query parameters of the resolved resource:
    [const { resourceVersion = "rel:latest-version", ...params } =
    options.params], with [resourceVersion] put back when
    versionable. *)
Definition resource_params (isVersionable : bool)
  (params : list (string * value)) : list (string * value) :=
  let resourceVersion :=
    match or_default JUndefined (Val.assoc "resourceVersion" params) with
    | JUndefined => JStr "rel:latest-version"
    | v => v
    end in
  let rest := Val.remove "resourceVersion" params in
  if versionable isVersionable params
  then Val.set "resourceVersion" resourceVersion rest
  else rest.

Definition router_request (path : string) : value :=
  JObj [("requestId", JStr "router");
        ("action", JStr "view");
        ("uri", JStr ("/router/translate-path?path=" ++ path ++ "&_format=json"));
        ("headers", JObj [("Accept", JStr "application/vnd.api+json")])].

Definition resolved_resource_request (resourceParams : string) : value :=
  JObj [("requestId", JStr "resolvedResource");
        ("action", JStr "view");
        ("uri", JStr ("{{router.body@$.jsonapi.individual}}?" ++ resourceParams));
        ("waitFor", JArr [JStr "router"])].

Definition subrequests_payload (path resourceParams : string) : value :=
  JArr [router_request path; resolved_resource_request resourceParams].

(** [subrequestsPath] *)
Definition subrequests_path (locale defaultLocale : option string) : string :=
  match locale with
  | Some l =>
      if Js.truthy_str l && Js.truthy_opt defaultLocale
         && differ locale defaultLocale
      then "/" ++ l ++ "/subrequests"
      else "/subrequests"
  | None => "/subrequests"
  end.

(** The part of [getResourceByPath] after the response has arrived. *)
Definition read_subresponses (env : Env) (c : Client) (deserialize_ : bool)
  (json : value) : Outcome value :=
  let resolved := Val.get "body" (Val.get "resolvedResource#uri{0}" json) in
  if negb (Val.truthy resolved) then
    let router := Val.get "body" (Val.get "router" json) in
    if Val.truthy router then
      match parse_json env router with
      | Throw e => Throw e
      | Ok error =>
          if Val.truthy (Val.get "message" error)
          then Throw (Error (Val.error_message (Val.get "message" error)))
          else Ok JNull
      end
    else Ok JNull
  else
    match parse_json env resolved with
    | Throw e => Throw e
    | Ok data =>
        match Val.get_strict "errors" data with
        | Throw e => Throw e
        | Ok errors =>
            if Val.truthy errors then
              match formatJsonApiErrors errors with
              | Ok message => Throw (Error message)
              | Throw e => Throw e
              end
            else if deserialize_ then deserialize c data else Ok data
        end
    end.

(** The call of [fetch] that [getResourceByPath] prepares for a
    non-empty path: the localized path, the resource parameters, the
    two sub-requests and the subrequests URL. *)
Definition subrequests_call (c : Client) (path : string)
  (options : ResourceOptions) : Outcome Request :=
  let isVersionable := or_default false (o_isVersionable options) in
  let withAuth_ := or_default (withAuth c) (o_withAuth options) in
  let params := or_default [] (o_params options) in
  let path :=
    localized_path c path (o_locale options) (o_defaultLocale options) in
  let resourceParams :=
    Qs.stringify (JObj (resource_params isVersionable params)) in
  let payload := subrequests_payload path resourceParams in
  let subrequestsPath :=
    subrequests_path (o_locale options) (o_defaultLocale options) in
  match buildUrl (baseUrl c) subrequestsPath
          (ParamsObject [("_format", JStr "json")]) with
  | Throw e => Throw e
  | Ok url =>
      Ok (mkRequest (Url.toString url)
            (mkInit (Some "POST") [] (Some (BodyJson payload))
               (Some "include") (Some "follow") (Some withAuth_)))
  end.

(** The request that [getResourceByPath] hands to [fetch], written
    out: what [subrequests_call] evaluates to. *)
Definition batched_request (c : Client) (path : string)
  (options : ResourceOptions) : Request :=
  mkRequest
    (Url.toString
       (Url.set_search "_format=json"
          (Url.parse
             (baseUrl c
              ++ subrequests_path (o_locale options) (o_defaultLocale options)))))
    (mkInit (Some "POST") []
       (Some (BodyJson
          (JArr
             [JObj [("requestId", JStr "router");
                    ("action", JStr "view");
                    ("uri",
                     JStr ("/router/translate-path?path="
                           ++ localized_path c path (o_locale options)
                                (o_defaultLocale options)
                           ++ "&_format=json"));
                    ("headers",
                     JObj [("Accept", JStr "application/vnd.api+json")])];
              JObj [("requestId", JStr "resolvedResource");
                    ("action", JStr "view");
                    ("uri",
                     JStr ("{{router.body@$.jsonapi.individual}}?"
                           ++ Qs.stringify
                                (JObj (resource_params
                                         (or_default false
                                            (o_isVersionable options))
                                         (or_default [] (o_params options))))));
                    ("waitFor", JArr [JStr "router"])]])))
       (Some "include") (Some "follow")
       (Some (or_default (withAuth c) (o_withAuth options)))).

(** [getResourceByPath(path, options)] *)
Definition getResourceByPath (env : Env) (path : string)
  (options : ResourceOptions) : M value :=
  c <- get_client ;;
  if negb (Js.truthy_str path) then ret JNull
  else
    call <- lift (subrequests_call c path options) ;;
    response <- fetch env (req_input call) (req_init call) ;;
    json <- lift (response_json env response) ;;
    c <- get_client ;;
    lift (read_subresponses env c (or_default true (o_deserialize options)) json).

(** The options [getResourceFromContext] passes on. *)
Definition context_options (c : Client) (type : string) (context : Context)
  (options : ResourceOptions) : ResourceOptions :=
  mkOptions (Some (or_default true (o_deserialize options)))
    (Some (or_default (String.prefix "node--" type) (o_isVersionable options)))
    (Some (truthy_flag (ctx_preview context)
           || or_default (withAuth c) (o_withAuth options)))
    (ctx_locale context) (ctx_defaultLocale context)
    (Some (Val.spread
             [("resourceVersion",
               Val.get "resourceVersion" (ctx_previewData context))]
             (or_default [] (o_params options))))
    None.

(** [getResourceFromContext(type, context, options)] *)
Definition getResourceFromContext (env : Env) (type : string)
  (context : Context) (options : ResourceOptions) : M value :=
  c <- get_client ;;
  let path :=
    getPathFromContext c context (Some (or_default "/" (o_prefix options))) in
  getResourceByPath env path (context_options c type context options).

(* ------------------------------------------------------------------ *)
(** *** MenuTreeBuilder *)

(** [l.map(f)] where [f] may throw: the first exception ends the map. *)
Fixpoint map_outcome {A B : Type} (f : A -> Outcome B) (l : list A)
  : Outcome (list B) :=
  match l with
  | [] => Ok []
  | x :: rest =>
      match f x with
      | Throw e => Throw e
      | Ok y =>
          match map_outcome f rest with
          | Throw e => Throw e
          | Ok ys => Ok (y :: ys)
          end
      end
  end.

(** The own properties an object spread copies.  (Only objects are
    ever spread below: a link is kept by the [filter] only if it has a
    [parent] property.) *)
Definition own_properties (v : value) : list (string * value) :=
  match v with
  | JObj fs => fs
  | _ => []
  end.

(** [link?.parent === parent] *)
Definition is_child_of (parent : value) (link : value) : bool :=
  Val.strict_eq (Val.get "parent" link) parent.

(** [{ ...link, ...subtree }] *)
Definition attach (link subtree : value) : value :=
  JObj (Val.spread (own_properties link) (own_properties subtree)).

(** The default of the [parent] parameter: [""] for [undefined]. *)
Definition default_parent (parent : value) : value :=
  match parent with JUndefined => JStr EmptyString | _ => parent end.

(** [buildMenuTree(links, parent = "")].  [depth] is the call-stack
    depth left to the recursion: a chain of parents that never ends
    exhausts it.  A truthy [links] that is not an array has no
    [filter] method. *)
Fixpoint buildMenuTree (depth : nat) (links : value) (parent : value)
  : Outcome value :=
  match depth with
  | O => Throw RangeError
  | S depth' =>
      let parent := default_parent parent in
      if negb (Val.truthy (Val.get "length" links))
      then Ok (JObj [("items", JArr [])])
      else
        match links with
        | JArr ls =>
            let children := filter (is_child_of parent) ls in
            match children with
            | [] => Ok (JObj [])
            | _ :: _ =>
                match
                  map_outcome
                    (fun link =>
                       match buildMenuTree depth' links (Val.get "id" link) with
                       | Ok subtree => Ok (attach link subtree)
                       | Throw e => Throw e
                       end)
                    children
                with
                | Ok items => Ok (JObj [("items", JArr items)])
                | Throw e => Throw e
                end
            end
        | _ => Throw TypeError
        end
  end.

(** The nodes of a built tree: the elements of its [items], and the
    nodes of those. *)
Inductive tree_node : value -> value -> Prop :=
| node_here (tree : value) (items : list value) (n : value) :
    Val.get "items" tree = JArr items -> In n items -> tree_node tree n
| node_below (tree : value) (items : list value) (n m : value) :
    Val.get "items" tree = JArr items -> In n items -> tree_node n m ->
    tree_node tree m.

(** [{ items, tree }] *)
Record Menu := mkMenu {
  menu_items : value;
  menu_tree : value
}.

(** The first half of [getMenu]: the request, and [items] out of the
    response. *)
Definition fetch_menu_items (env : Env) (name : string)
  (options : ResourceOptions) : M value :=
  c <- get_client ;;
  let withAuth_ := or_default (withAuth c) (o_withAuth options) in
  let deserialize_ := or_default true (o_deserialize options) in
  let params := or_default [] (o_params options) in
  let localePrefix :=
    match o_locale options with
    | Some l =>
        if Js.truthy_str l && differ (o_locale options) (o_defaultLocale options)
        then "/" ++ l else EmptyString
    | None => EmptyString
    end in
  url <- lift (buildUrl (baseUrl c)
                 (localePrefix ++ apiPrefix c ++ "/menu_items/" ++ name)
                 (ParamsObject params)) ;;
  response <- fetch env (Url.toString url)
                (mkInit None [] None None None (Some withAuth_)) ;;
  data <- lift (response_json env response) ;;
  c <- get_client ;;
  lift (if deserialize_ then deserialize c data else Ok data).

(** [getMenu(name, options)]: [const { items: tree } =
    this.buildMenuTree(items)]. *)
Definition getMenu (env : Env) (depth : nat) (name : string)
  (options : ResourceOptions) : M Menu :=
  items <- fetch_menu_items env name options ;;
  tree <- lift (buildMenuTree depth items JUndefined) ;;
  ret (mkMenu items (Val.get "items" tree)).

(* ================================================================== *)
(** ** A concrete platform and client *)
(* ================================================================== *)

(** JSON text of a value, as [JSON.stringify] writes it, for strings
    without control characters.  The concrete server below answers
    with such texts. *)
Module Json.

Definition quote : ascii := ascii_of_nat 34.
Definition backslash : ascii := ascii_of_nat 92.

Fixpoint escape (s : string) : string :=
  match s with
  | EmptyString => EmptyString
  | String c s' =>
      if Ascii.eqb c quote || Ascii.eqb c backslash
      then String backslash (String c (escape s'))
      else String c (escape s')
  end.

Definition quoted (s : string) : string :=
  String quote (escape s) ++ String quote EmptyString.

Fixpoint stringify (v : value) : string :=
  match v with
  | JUndefined | JNull => "null"
  | JBool true => "true"
  | JBool false => "false"
  | JNum n => Val.dec n
  | JStr s => quoted s
  | JArr l => "[" ++ Js.join "," (map stringify l) ++ "]"
  | JObj fs =>
      "{" ++ Js.join ","
               ((fix members (fs : list (string * value)) : list string :=
                   match fs with
                   | [] => []
                   | (_, JUndefined) :: rest => members rest
                   | (k, x) :: rest =>
                       (quoted k ++ ":" ++ stringify x) :: members rest
                   end) fs)
      ++ "}"
  end.

End Json.

Module Fixture.

Definition site : string := "https://cms.example.com".

Definition token : value :=
  JObj [("token_type", JStr "Bearer");
        ("expires_in", JNum 300);
        ("access_token", JStr "abc123")].

Definition article : value :=
  JObj [("data",
         JObj [("type", JStr "node--article");
               ("id", JStr "8f1b");
               ("attributes", JObj [("title", JStr "About")])])].

Definition not_found_errors : value :=
  JObj [("errors",
         JArr [JObj [("status", JStr "404"); ("title", JStr "Not Found")]])].

Definition forbidden_errors : value :=
  JObj [("errors",
         JArr [JObj [("status", JStr "403"); ("title", JStr "Forbidden");
                     ("detail", JStr "Access denied.")]])].

Definition router_miss : value :=
  JObj [("message", JStr "Unable to resolve path /gone.")].

Definition router_hit : value :=
  JObj [("jsonapi",
         JObj [("individual",
                JStr "https://cms.example.com/jsonapi/node/article/8f1b")])].

Definition sub_response (body : string) : value :=
  JObj [("body", JStr body)].

(** The batched answers: a resolved article, a router miss, a
    resource refused, a router body that is not JSON. *)
Definition answer_about : value :=
  JObj [("router", sub_response (Json.stringify router_hit));
        ("resolvedResource#uri{0}", sub_response (Json.stringify article))].

Definition answer_gone : value :=
  JObj [("router", sub_response (Json.stringify router_miss))].

Definition answer_denied : value :=
  JObj [("router", sub_response (Json.stringify router_hit));
        ("resolvedResource#uri{0}",
         sub_response (Json.stringify forbidden_errors))].

Definition answer_broken : value :=
  JObj [("router", sub_response "<html>Bad Gateway</html>")].

Definition link (id parent : string) : value :=
  JObj [("id", JStr id); ("parent", JStr parent)].

Definition main_links : list value :=
  [link "a" ""; link "b" "a"; link "c" "a"].

Definition orphan_links : list value :=
  [link "x" "gone"; link "y" "x"].

Definition main_menu : value := JObj [("data", JArr main_links)].
Definition orphan_menu : value := JObj [("data", JArr orphan_links)].

Definition documents : list value :=
  [token; article; not_found_errors; forbidden_errors; router_miss;
   router_hit; answer_about; answer_gone; answer_denied; answer_broken;
   main_menu; orphan_menu].

(** [JSON.parse] on the texts the server sends: the document whose
    text it is, a [SyntaxError] for text that is no document's. *)
Definition parse (text : string) : option value :=
  find (fun doc => String.eqb (Json.stringify doc) text) documents.

Definition reply (ok : bool) (status : Z) (statusText type : string)
  (doc : value) : Outcome Response :=
  Ok (mkResponse ok status statusText (Some type) (Json.stringify doc)).

(** The router [uri] of a subrequests payload. *)
Definition routed_uri (body : option Body) : string :=
  match body with
  | Some (BodyJson (JArr (router :: _))) => Val.to_str (Val.get "uri" router)
  | _ => EmptyString
  end.

Definition server : Transport :=
  fun _ request =>
    let url := req_input request in
    if String.eqb url (site ++ "/oauth/token") then
      reply true 200 "OK" "application/json" token
    else if String.eqb url (site ++ "/subrequests?_format=json") then
      let uri := routed_uri (init_body (req_init request)) in
      if String.eqb uri "/router/translate-path?path=/about&_format=json"
      then reply true 207 "Multi-Status" "application/json" answer_about
      else if String.eqb uri "/router/translate-path?path=/gone&_format=json"
      then reply true 207 "Multi-Status" "application/json" answer_gone
      else if String.eqb uri "/router/translate-path?path=/denied&_format=json"
      then reply true 207 "Multi-Status" "application/json" answer_denied
      else reply true 207 "Multi-Status" "application/json" answer_broken
    else if String.eqb url (site ++ "/jsonapi/menu_items/main") then
      reply true 200 "OK" "application/vnd.api+json" main_menu
    else if String.eqb url (site ++ "/jsonapi/menu_items/orphans") then
      reply true 200 "OK" "application/vnd.api+json" orphan_menu
    else
      reply false 404 "Not Found" "application/vnd.api+json" not_found_errors.

(** A clock that advances one second per reading. *)
Definition clock (k : nat) : Z := (1700000000000 + 1000 * Z.of_nat k)%Z.

(** [base64] is left as the identity: no property depends on the
    encoding. *)
Definition env : Env := mkEnv parse clock server (fun s => s).

(** A custom formatter that hands out the document's [data]. *)
Definition data_of (doc : value) : Outcome value := Ok (Val.get "data" doc).

Definition drupal : Client :=
  mkClient site DEFAULT_API_PREFIX DEFAULT_FRONT_PAGE DEFAULT_HEADERS
    (AuthCredentials "next" "s3cret" DEFAULT_AUTH_URL)
    None data_of DEFAULT_WITH_AUTH JUndefined None.


(** The same client without auth. *)
Definition drupal_anonymous : Client :=
  mkClient site DEFAULT_API_PREFIX DEFAULT_FRONT_PAGE DEFAULT_HEADERS
    AuthAbsent None data_of DEFAULT_WITH_AUTH JUndefined None.


Definition start (c : Client) : State := mkState c 0 [] [].


End Fixture.

(* ================================================================== *)
(** ** The other methods of the client *)
(* ================================================================== *)

(** What these methods read besides the client state: the platform,
    the message text the engine gives to the errors it raises itself,
    and the client's [useDefaultResourceTypeEntry] option. *)
Record Config := mkConfig {
  platform : Env;
  engine_message : JsError -> string;
  useDefaultResourceTypeEntry : bool
}.

(** [error.message] *)
Definition message_of (cfg : Config) (e : JsError) : string :=
  match e with
  | Error message => message
  | _ => engine_message cfg e
  end.

(** [try { m } catch (error) { h(error) }] *)
Definition catch {A : Type} (m : M A) (h : JsError -> M A) : M A :=
  fun st =>
    match m st with
    | (Ok a, st') => (Ok a, st')
    | (Throw e, st') => h e st'
    end.

Definition dash : ascii := "-"%char.

(** [s.split("--")] *)
Fixpoint split_dashes_aux (cur s : string) : list string :=
  match s with
  | EmptyString => [cur]
  | String c s' =>
      match s' with
      | String d s'' =>
          if Ascii.eqb c dash && Ascii.eqb d dash
          then cur :: split_dashes_aux EmptyString s''
          else split_dashes_aux (cur ++ String c EmptyString) s'
      | EmptyString => split_dashes_aux (cur ++ String c EmptyString) s'
      end
  end.

Definition split_dashes (s : string) : list string :=
  split_dashes_aux EmptyString s.

(** Whether a dash occurs in [s]. *)
Fixpoint has_dash (s : string) : bool :=
  match s with
  | EmptyString => false
  | String c s' => Ascii.eqb c dash || has_dash s'
  end.

(** [`${x}`] for an element of a destructured array that may be
    missing. *)
Definition segment_text (o : option string) : string :=
  match o with
  | Some s => s
  | None => "undefined"
  end.

(** [locale ? a : b] on an optional locale *)
Definition given_locale (locale : option string) : option string :=
  match locale with
  | Some l => if Js.truthy_str l then Some l else None
  | None => None
  end.

(** [options?.locale !== options?.defaultLocale ? options.locale :
    undefined] *)
Definition entry_locale_of (options : ResourceOptions) : option string :=
  if differ (o_locale options) (o_defaultLocale options)
  then o_locale options else None.

(** [locale ? `/${locale}${this.apiPrefix}` : this.apiPrefix] *)
Definition index_path (c : Client) (locale : option string) : string :=
  match given_locale locale with
  | Some l => "/" ++ l ++ apiPrefix c
  | None => apiPrefix c
  end.

(** [{ withAuth: false }] *)
Definition index_init : FetchOptions :=
  mkInit None [] None None None (Some false).

(** [getIndex(locale)] *)
Definition getIndex (cfg : Config) (locale : option string) : M value :=
  c <- get_client ;;
  url <- lift (buildUrl (baseUrl c) (index_path c locale) ParamsAbsent) ;;
  catch (response <- fetch (platform cfg) (Url.toString url) index_init ;;
         lift (response_json (platform cfg) response))
    (fun error =>
       throw (Error ("Failed to fetch JSON:API index at " ++ Url.toString url
                     ++ " - " ++ message_of cfg error))).


(** The entry that the type [id--bundle] gets without the index. *)
Definition default_entry (c : Client) (id bundle : string)
  (locale : option string) : string :=
  baseUrl c ++ apiPrefix c ++ "/"
  ++ match given_locale locale with
     | Some l => l ++ "/" ++ id ++ "/" ++ bundle
     | None => id ++ "/" ++ bundle
     end.

(** [getEntryForResourceType(type, locale)] *)
Definition getEntryForResourceType (cfg : Config) (type : string)
  (locale : option string) : M value :=
  c <- get_client ;;
  if useDefaultResourceTypeEntry cfg then
    let parts := split_dashes type in
    let id := segment_text (nth_error parts 0) in
    let bundle := segment_text (nth_error parts 1) in
    ret (JStr (default_entry c id bundle locale))
  else
    index <- getIndex cfg locale ;;
    links <- lift (Val.get_strict "links" index) ;;
    let link := Val.get type links in
    if negb (Val.truthy link)
    then throw (Error ("Resource of type '" ++ type ++ "' not found."))
    else ret (Val.get "href" link).


(** [options.deserialize ? this.deserialize(json) : json] *)
Definition deserialized (c : Client) (wanted : bool) (json : value)
  : Outcome value :=
  if wanted then deserialize c json else Ok json.

(** [getResource(type, uuid, options)] *)
Definition getResource (cfg : Config) (type uuid : string)
  (options : ResourceOptions) : M value :=
  c <- get_client ;;
  let deserialize_ := or_default true (o_deserialize options) in
  let withAuth_ := or_default (withAuth c) (o_withAuth options) in
  let params := or_default [] (o_params options) in
  apiPath <- getEntryForResourceType cfg type (entry_locale_of options) ;;
  url <- lift (buildUrl (baseUrl c) (Val.to_str apiPath ++ "/" ++ uuid)
                 (ParamsObject params)) ;;
  response <- fetch (platform cfg) (Url.toString url)
                (mkInit None [] None None None (Some withAuth_)) ;;
  json <- lift (response_json (platform cfg) response) ;;
  c <- get_client ;;
  lift (deserialized c deserialize_ json).



(** [paths.flatMap(f)] where [f] gives a value: an array is spliced
    in, anything else is one element. *)
Definition flat_values (vs : list value) : list value :=
  flat_map (fun v => match v with JArr l => l | _ => [v] end) vs.

(** The [flatMap] callback of [buildStaticPathsParamsFromPaths] on a
    path that is any value: only a string has [replace]. *)
Definition static_path_entry_of (options : PathOptions) (_path : value)
  : Outcome StaticPathEntry :=
  match _path with
  | JStr p => Ok (static_path_entry options p)
  | _ => Throw TypeError
  end.

(** [resource?.path?.alias === this.frontPage ? "/" :
    resource?.path?.alias] *)
Definition alias_or_root (c : Client) (resource : value) : value :=
  let alias := Val.get "alias" (Val.get "path" resource) in
  if Val.strict_eq alias (JStr (frontPage c)) then JStr "/" else alias.

(** [buildStaticPathsFromResources(resources, options)] *)
Definition buildStaticPathsFromResources (c : Client) (resources : value)
  (options : PathOptions) : Outcome (list StaticPathEntry) :=
  if Val.nullish resources then Ok []
  else
    match resources with
    | JArr rs =>
        let paths := flat_values (map (alias_or_root c) rs) in
        match paths with
        | [] => Ok []
        | _ :: _ => map_outcome (static_path_entry_of options) paths
        end
    | _ => Throw TypeError
    end.



(** The options [getResourcePreviewUrl] passes on:
    [{ withAuth: true, ...options }]. *)
Definition preview_options (options : ResourceOptions) : ResourceOptions :=
  mkOptions (o_deserialize options) (o_isVersionable options)
    (Some (or_default true (o_withAuth options)))
    (o_locale options) (o_defaultLocale options)
    (o_params options) (o_prefix options).

(** The end of [getResourcePreviewUrl]: the URL of the entity. *)
Definition preview_url_of (entity : value) : Outcome value :=
  if negb (Val.truthy entity) then Ok JNull
  else if negb (Val.truthy (Val.get "path" entity))
  then Throw (Error ("The path attribute is missing for entity type "
                     ++ Val.to_str (Val.get "type" entity)))
  else if Val.truthy (Val.get "default_langcode" entity)
  then Ok (Val.get "alias" (Val.get "path" entity))
  else Ok (JStr ("/" ++ Val.to_str (Val.get "langcode" (Val.get "path" entity))
                 ++ Val.to_str (Val.get "alias" (Val.get "path" entity)))).

(** [getResourcePreviewUrl(slug, options)] *)
Definition getResourcePreviewUrl (env : Env) (slug : string)
  (options : ResourceOptions) : M value :=
  entity <- getResourceByPath env slug (preview_options options) ;;
  lift (preview_url_of entity).


(** The client once the [token] setter has stored a token and its
    expiry. *)
Definition stored (c : Client) (token : value) (expires : option Z) : Client :=
  mkClient (baseUrl c) (apiPrefix c) (frontPage c) (_headers c) (_auth c)
    (fetcher c) (formatter_deserialize c) (withAuth c) token expires.

(** [token.expires_in * 1000] added to the clock reading [t]. *)
Definition expiry_of (t : Z) (token : value) : option Z :=
  option_map (fun ttl => (t + ttl * 1000)%Z)
    (to_number (Val.get "expires_in" token)).







(* ------------------------------------------------------------------ *)
(** *** The constructor and its setters *)

(** [DrupalClientOptions["auth"]] as it is given: a callback, or an
    object whose fields are absent or hold a string. *)
Inductive AuthOption : Type :=
| AuthFunction (header : string)
| AuthObject (clientId clientSecret url : option string).

(** [DrupalClientOptions], without the logger and the debug flag. *)
Record ClientOptions := mkClientOptions {
  opt_apiPrefix : option string;
  opt_formatter : option (value -> Outcome value);
  opt_frontPage : option string;
  opt_useDefaultResourceTypeEntry : option bool;
  opt_headers : option (list (string * string));
  opt_withAuth : option bool;
  opt_fetcher : option Transport;
  opt_auth : option AuthOption
}.

(** [set apiPrefix(apiPrefix)] *)
Definition set_apiPrefix (apiPrefix : string) : string :=
  if Js.starts_with_slash apiPrefix then apiPrefix else "/" ++ apiPrefix.

(** [set auth(auth)] *)
Definition set_auth (auth : option AuthOption) : Outcome Auth :=
  match auth with
  | None => Ok AuthAbsent
  | Some (AuthFunction header) => Ok (AuthCallback header)
  | Some (AuthObject clientId clientSecret url) =>
      if negb (Js.truthy_opt clientId) || negb (Js.truthy_opt clientSecret)
      then Throw (Error
        "'clientId' and 'clientSecret' are required for auth. See https://next-drupal.org/docs/client/auth")
      else Ok (AuthCredentials (or_default EmptyString clientId)
                 (or_default EmptyString clientSecret)
                 (or_default DEFAULT_AUTH_URL url))
  end.

(** [new DrupalClient(baseUrl, options)].  [jsona] is the [deserialize]
    of the default formatter, [new Jsona()]. *)
Definition new_DrupalClient (jsona : value -> Outcome value)
  (baseUrl : string) (options : ClientOptions) : Outcome Client :=
  if negb (Js.truthy_str baseUrl)
  then Throw (Error "The 'baseUrl' param is required.")
  else
    match set_auth (opt_auth options) with
    | Throw e => Throw e
    | Ok auth =>
        Ok (mkClient baseUrl
              (set_apiPrefix
                 (or_default DEFAULT_API_PREFIX (opt_apiPrefix options)))
              (or_default DEFAULT_FRONT_PAGE (opt_frontPage options))
              (or_default DEFAULT_HEADERS (opt_headers options))
              auth
              (opt_fetcher options)
              (or_default jsona (opt_formatter options))
              (or_default DEFAULT_WITH_AUTH (opt_withAuth options))
              JUndefined None)
    end.

(** The rest of what the constructor stores. *)
Definition new_Config (env : Env) (engine_message : JsError -> string)
  (options : ClientOptions) : Config :=
  mkConfig env engine_message
    (or_default false (opt_useDefaultResourceTypeEntry options)).

(* ================================================================== *)
(** ** A concrete site with an index, a view and a callback auth *)
(* ================================================================== *)

Module Site.

(** The messages an engine gives to the errors it raises itself. *)
Definition messages (e : JsError) : string :=
  match e with
  | Error message => message
  | TypeError => "Cannot read properties of undefined"
  | SyntaxError => "Unexpected token in JSON"
  | RangeError => "Maximum call stack size exceeded"
  end.

Definition index : value :=
  JObj [("links",
         JObj [("node--article",
                JObj [("href",
                       JStr "https://cms.example.com/jsonapi/node/article")])])].

Definition blog_view : value :=
  JObj [("data", JArr [JObj [("type", JStr "node--article");
                             ("id", JStr "8f1b")]]);
        ("meta", JObj [("count", JNum 1)]);
        ("links", JObj [("self", JStr "https://cms.example.com/jsonapi/views/blog/page_1")])].

Definition documents : list value := [index; blog_view].

Definition parse (text : string) : option value :=
  match find (fun doc => String.eqb (Json.stringify doc) text) documents with
  | Some doc => Some doc
  | None => Fixture.parse text
  end.

Definition server : Transport :=
  fun history request =>
    let url := req_input request in
    if String.eqb url (Fixture.site ++ "/jsonapi") then
      Fixture.reply true 200 "OK" "application/vnd.api+json" index
    else if String.eqb url (Fixture.site ++ "/jsonapi/views/blog/page_1") then
      Fixture.reply true 200 "OK" "application/vnd.api+json" blog_view
    else if String.eqb url (Fixture.site ++ "/jsonapi/node/article/8f1b") then
      Fixture.reply true 200 "OK" "application/vnd.api+json" Fixture.article
    else Fixture.server history request.

Definition env : Env := mkEnv parse Fixture.clock server (fun s => s).


(** The client computes its entries. *)
Definition config_default_entry : Config := mkConfig env messages true.

(** A client whose auth is a callback. *)
Definition drupal_callback : Client :=
  mkClient Fixture.site DEFAULT_API_PREFIX DEFAULT_FRONT_PAGE DEFAULT_HEADERS
    (AuthCallback "Basic bmV4dDpzM2NyZXQ=")
    None Fixture.data_of DEFAULT_WITH_AUTH JUndefined None.

(** A resource with a path alias. *)
Definition aliased (alias : string) : value :=
  JObj [("path", JObj [("alias", JStr alias)])].

(** The options of a client with client credentials. *)
Definition options : ClientOptions :=
  mkClientOptions (Some "api") None None None None None None
    (Some (AuthObject (Some "next") (Some "s3cret") None)).

End Site.

(* ================================================================== *)
(** * Properties *)
(* ================================================================== *)

(** ** Strings *)

Lemma string_app_empty_r (s : string) : s ++ "" = s.
Proof. induction s as [|c s IH]; simpl; [reflexivity | now rewrite IH]. Qed.

Lemma string_app_assoc (a b c : string) : (a ++ b) ++ c = a ++ b ++ c.
Proof. induction a as [|x a IH]; simpl; [reflexivity | now rewrite IH]. Qed.

Lemma prefix_app (p s : string) : String.prefix p (p ++ s) = true.
Proof.
  induction p as [|c p IH]; simpl.
  - now destruct s.
  - destruct (ascii_dec c c) as [_|n]; [exact IH | now elim n].
Qed.

Lemma drop_app (p s : string) : Js.drop (String.length p) (p ++ s) = s.
Proof. induction p as [|c p IH]; simpl; [reflexivity | exact IH]. Qed.

Lemma prefix_split (p s : string) :
  String.prefix p s = true -> s = p ++ Js.drop (String.length p) s.
Proof.
  revert s; induction p as [|c p IH]; intros s H.
  - reflexivity.
  - destruct s as [|d s]; simpl in H; [discriminate|].
    revert H. destruct (ascii_dec c d) as [e|]; [subst d|discriminate].
    intros H. simpl. f_equal. now apply IH.
Qed.

Lemma replace_first_unfold (pat repl s : string) :
  Js.replace_first pat repl s =
  if String.prefix pat s then repl ++ Js.drop (String.length pat) s
  else match s with
       | EmptyString => EmptyString
       | String c s' => String c (Js.replace_first pat repl s')
       end.
Proof. destruct s; reflexivity. Qed.

Lemma replace_first_at_first (pat repl a b : string) :
  (forall a' b', a ++ pat ++ b = a' ++ pat ++ b' ->
                 String.length a <= String.length a') ->
  Js.replace_first pat repl (a ++ pat ++ b) = a ++ repl ++ b.
Proof.
  induction a as [|c a IH]; intros Hmin.
  - simpl. rewrite replace_first_unfold, prefix_app, drop_app. reflexivity.
  - rewrite replace_first_unfold.
    destruct (String.prefix pat (String c a ++ pat ++ b)) eqn:E.
    + apply prefix_split in E.
      specialize (Hmin "" _ E). simpl in Hmin. lia.
    + simpl. f_equal. apply IH. intros a' b' H.
      specialize (Hmin (String c a') b'). simpl in Hmin.
      rewrite H in Hmin. specialize (Hmin eq_refl). lia.
Qed.

Lemma replace_first_absent (pat repl s : string) :
  (forall a b, s <> a ++ pat ++ b) ->
  Js.replace_first pat repl s = s.
Proof.
  induction s as [|c s IH]; intros Hno.
  - rewrite replace_first_unfold.
    destruct (String.prefix pat "") eqn:E; [|reflexivity].
    apply prefix_split in E. now elim (Hno "" _ E).
  - rewrite replace_first_unfold.
    destruct (String.prefix pat (String c s)) eqn:E.
    + apply prefix_split in E. now elim (Hno "" _ E).
    + f_equal. apply IH. intros a b H. apply (Hno (String c a) b).
      simpl. now rewrite H.
Qed.













Lemma truthy_str_iff (s : string) : Js.truthy_str s = true <-> s <> "".
Proof. destruct s; simpl; split; congruence. Qed.

(** ** StaticPathBuilder *)





(** C10.  With a non-empty prefix option, what is removed from the
    slash-trimmed path is the first occurrence of the prefix (its own
    leading slash dropped) followed by a slash, wherever that
    occurrence is; without an occurrence the path is only trimmed.
    Only one occurrence goes.  So with prefix [/blog] the path
    [news/blog/post] loses an interior segment and gives
    [["news"; "post"]], which is not the path cut at its slashes. *)
Theorem C10_prefix_removed_at_first_occurrence :
  (forall (path prefix : string) (locale : option string),
      prefix <> "" ->
      let trimmed := Js.trim_slashes path in
      let pat := Js.drop_leading_slash prefix ++ "/" in
      let e := static_path_entry (mkPathOptions (Some prefix) locale) path in
      (forall a b,
          trimmed = a ++ pat ++ b ->
          (forall a' b', trimmed = a' ++ pat ++ b' ->
                         String.length a <= String.length a') ->
          slug e = Js.split_slash (a ++ b))
      /\ ((forall a b, trimmed <> a ++ pat ++ b) ->
          slug e = Js.split_slash trimmed))
  /\ buildStaticPathsParamsFromPaths ["news/blog/post"]
       (mkPathOptions (Some "/blog") None)
     = [mkEntry ["news"; "post"] None]
  /\ Js.split_slash "news/blog/post" <> ["news"; "post"]
  /\ buildStaticPathsParamsFromPaths ["blog/blog/post"]
       (mkPathOptions (Some "/blog") None)
     = [mkEntry ["blog"; "post"] None].
Proof.
  split; [|repeat split; discriminate].
  intros path prefix locale Hne trimmed pat e.
  assert (Hs : strip_prefix (mkPathOptions (Some prefix) locale) path
               = Js.replace_first pat "" trimmed).
  { unfold strip_prefix; simpl. apply truthy_str_iff in Hne. now rewrite Hne. }
  split.
  - intros a b Hab Hmin. unfold e, static_path_entry; simpl.
    rewrite Hs, Hab. rewrite replace_first_at_first; [reflexivity|].
    intros a' b' H. apply (Hmin a' b'). now rewrite Hab.
  - intros Hno. unfold e, static_path_entry; simpl.
    rewrite Hs. now rewrite replace_first_absent.
Qed.

Lemma C10_prefix_removed_at_first_occurrence_witness :
  slug (static_path_entry (mkPathOptions (Some "/blog") None) "/news/blog/post/")
  = Js.split_slash ("news/" ++ "post").
Proof.
  apply (proj1 (proj1 C10_prefix_removed_at_first_occurrence
                  "/news/blog/post/" "/blog" None
                  ltac:(discriminate)) "news/" "post" eq_refl).
  intros a' b' H.
  do 5 (destruct a' as [|? a']; [discriminate H | injection H as _ H]).
  simpl. lia.
Defined.

(** ** MenuTreeBuilder *)

Lemma strict_eq_true (a b : value) : Val.strict_eq a b = true -> a = b.
Proof.
  destruct a, b; simpl; try discriminate; intros H; try reflexivity.
  - f_equal. now apply Bool.eqb_prop.
  - f_equal. now apply Z.eqb_eq.
  - f_equal. now apply String.eqb_eq.
Qed.

Lemma map_outcome_ok {A B : Type} (f : A -> Outcome B) (l : list A) (ys : list B) :
  map_outcome f l = Ok ys -> Forall2 (fun x y => f x = Ok y) l ys.
Proof.
  revert ys; induction l as [|x l IH]; intros ys H; simpl in H.
  - injection H as <-. constructor.
  - destruct (f x) as [y|e] eqn:Ex; [|discriminate].
    destruct (map_outcome f l) as [ys'|e]; [|discriminate].
    injection H as <-. constructor; [exact Ex | now apply IH].
Qed.

Lemma map_outcome_all_ok {A B : Type} (f : A -> Outcome B) (l : list A) :
  (forall x, In x l -> exists y, f x = Ok y) ->
  exists ys, map_outcome f l = Ok ys.
Proof.
  induction l as [|x l IH]; intros H; simpl.
  - now exists [].
  - destruct (H x (or_introl eq_refl)) as [y ->].
    destruct IH as [ys ->]; [intros; apply H; now right|].
    now exists (y :: ys).
Qed.

Lemma map_outcome_ext_ok {A B : Type} (f g : A -> Outcome B) (l : list A)
  (ys : list B) :
  (forall x y, In x l -> f x = Ok y -> g x = Ok y) ->
  map_outcome f l = Ok ys -> map_outcome g l = Ok ys.
Proof.
  revert ys; induction l as [|x l IH]; intros ys H Hf; simpl in *.
  - exact Hf.
  - destruct (f x) as [y|e] eqn:Ex; [|discriminate].
    rewrite (H x y (or_introl eq_refl) Ex).
    destruct (map_outcome f l) as [ys'|e]; [|discriminate].
    rewrite (IH ys'); [exact Hf | | reflexivity].
    intros x' y' Hin. apply H. now right.
Qed.

(** What a call on a non-empty array of links returns. *)
Lemma buildMenuTree_array (depth : nat) (ls : list value) (parent tree : value) :
  ls <> [] ->
  buildMenuTree (S depth) (JArr ls) parent = Ok tree ->
  let children := filter (is_child_of (default_parent parent)) ls in
  (children = [] /\ tree = JObj [])
  \/ (exists items,
         children <> [] /\ tree = JObj [("items", JArr items)]
         /\ Forall2
              (fun link item =>
                 exists subtree,
                   buildMenuTree depth (JArr ls) (Val.get "id" link) = Ok subtree
                   /\ item = attach link subtree)
              children items).
Proof.
  intros Hne H children. simpl in H.
  destruct ls as [|l0 ls']; [congruence|]. simpl Val.truthy in H. simpl negb in H.
  cbv iota in H. fold children in H.
  destruct children as [|c cs] eqn:Ec.
  - left. split; [reflexivity | congruence].
  - right.
    destruct (map_outcome _ (c :: cs)) as [items|e] eqn:Em; [|discriminate].
    exists items. split; [discriminate|]. split; [congruence|].
    apply map_outcome_ok in Em.
    eapply Forall2_impl; [|exact Em]. intros link item Hi. simpl in Hi.
    destruct (buildMenuTree depth (JArr (l0 :: ls')) (Val.get "id" link))
      as [subtree|e]; [|discriminate].
    exists subtree. split; [reflexivity|]. now injection Hi as <-.
Qed.

Lemma buildMenuTree_unfold (depth : nat) (l0 : value) (ls : list value) (parent : value) :
  buildMenuTree (S depth) (JArr (l0 :: ls)) parent =
  match filter (is_child_of (default_parent parent)) (l0 :: ls) with
  | [] => Ok (JObj [])
  | children =>
      match
        map_outcome
          (fun link =>
             match buildMenuTree depth (JArr (l0 :: ls)) (Val.get "id" link) with
             | Ok subtree => Ok (attach link subtree)
             | Throw e => Throw e
             end)
          children
      with
      | Ok items => Ok (JObj [("items", JArr items)])
      | Throw e => Throw e
      end
  end.
Proof.
  cbn -[filter map_outcome].
  destruct (filter (is_child_of (default_parent parent)) (l0 :: ls)); reflexivity.
Qed.

Lemma buildMenuTree_empty (depth : nat) (links parent : value) :
  Val.truthy (Val.get "length" links) = false ->
  buildMenuTree (S depth) links parent = Ok (JObj [("items", JArr [])]).
Proof. intros H. simpl. now rewrite H. Qed.

(** More stack never changes a result. *)
Lemma buildMenuTree_deeper (depth : nat) :
  forall links parent tree,
    buildMenuTree depth links parent = Ok tree ->
    buildMenuTree (S depth) links parent = Ok tree.
Proof.
  induction depth as [|d IH]; intros links parent tree H; [discriminate|].
  destruct (Val.truthy (Val.get "length" links)) eqn:El.
  2:{ rewrite buildMenuTree_empty in * by assumption. exact H. }
  destruct links as [| | | | |ls|];
    try (cbn [buildMenuTree] in H; rewrite El in H; cbn [negb] in H; discriminate).
  destruct ls as [|l0 ls]; [discriminate|].
  rewrite buildMenuTree_unfold in *.
  destruct (filter _ (l0 :: ls)) as [|c cs]; [exact H|].
  destruct (map_outcome _ (c :: cs)) as [items|e] eqn:Em; [|discriminate].
  erewrite map_outcome_ext_ok; [exact H | | exact Em].
  intros link item _ Hi. cbv beta in Hi |- *.
  destruct (buildMenuTree d (JArr (l0 :: ls)) (Val.get "id" link)) as [sub|e] eqn:Es;
    [|discriminate].
  now rewrite (IH _ _ _ Es).
Qed.

Lemma buildMenuTree_deeper_by (k depth : nat) (links parent tree : value) :
  buildMenuTree depth links parent = Ok tree ->
  buildMenuTree (k + depth) links parent = Ok tree.
Proof.
  intros H. induction k as [|k IH]; [exact H|].
  now apply buildMenuTree_deeper.
Qed.

(** A menu whose parent links go strictly down some rank is built
    whenever the stack is deeper than the rank of the starting
    parent. *)
Lemma buildMenuTree_total (ls : list value) (rank : value -> nat) :
  (forall link, In link ls ->
     rank (default_parent (Val.get "id" link)) < rank (Val.get "parent" link)) ->
  forall depth parent,
    rank (default_parent parent) < depth ->
    exists tree, buildMenuTree depth (JArr ls) parent = Ok tree.
Proof.
  intros Hrank. induction depth as [|d IH]; intros parent Hd; [lia|].
  destruct ls as [|l0 ls']; [eexists; reflexivity|].
  rewrite buildMenuTree_unfold.
  destruct (filter _ (l0 :: ls')) as [|c cs] eqn:Ef; [eexists; reflexivity|].
  destruct (map_outcome_all_ok
              (fun link =>
                 match buildMenuTree d (JArr (l0 :: ls')) (Val.get "id" link) with
                 | Ok subtree => Ok (attach link subtree)
                 | Throw e => Throw e
                 end) (c :: cs)) as [items Hi].
  - intros link Hin. rewrite <- Ef in Hin. apply filter_In in Hin.
    destruct Hin as [Hin Hc]. apply strict_eq_true in Hc.
    specialize (Hrank link Hin). rewrite Hc in Hrank.
    destruct (IH (Val.get "id" link)) as [sub ->]; [lia|].
    eexists; reflexivity.
  - rewrite Hi. eexists; reflexivity.
Qed.

Lemma assoc_set_same {A : Type} (k : string) (v : A) (l : list (string * A)) :
  Val.assoc k (Val.set k v l) = Some v.
Proof.
  induction l as [|[k' v'] l IH]; simpl.
  - now rewrite String.eqb_refl.
  - destruct (String.eqb k k') eqn:E; simpl.
    + now rewrite String.eqb_refl.
    + now rewrite E.
Qed.

Lemma assoc_set_other {A : Type} (k k' : string) (v : A) (l : list (string * A)) :
  k <> k' -> Val.assoc k' (Val.set k v l) = Val.assoc k' l.
Proof.
  intros Hne. induction l as [|[k0 v0] l IH]; simpl.
  - destruct (String.eqb_spec k' k); [congruence | reflexivity].
  - destruct (String.eqb_spec k k0) as [->|]; simpl.
    + destruct (String.eqb_spec k' k0); [congruence | reflexivity].
    + now rewrite IH.
Qed.

Lemma filter_none {A : Type} (f : A -> bool) (l : list A) :
  (forall x, In x l -> f x = false) -> filter f l = [].
Proof.
  induction l as [|x l IH]; intros H; simpl; [reflexivity|].
  rewrite (H x (or_introl eq_refl)). apply IH. intros y Hy. apply H. now right.
Qed.

Lemma default_parent_defined (p : value) : default_parent p <> JUndefined.
Proof. destruct p; discriminate. Qed.

Lemma child_is_object (p link : value) :
  is_child_of (default_parent p) link = true -> exists fs, link = JObj fs.
Proof.
  intros H. apply strict_eq_true in H.
  pose proof (default_parent_defined p) as Hd. rewrite <- H in Hd.
  destruct link as [| | | | s|l|fs]; try (now elim Hd).
  now exists fs.
Qed.

Lemma Forall2_In_right {A B : Type} (R : A -> B -> Prop) (l : list A) (l' : list B) (y : B) :
  Forall2 R l l' -> In y l' -> exists x, In x l /\ R x y.
Proof.
  induction 1 as [|x y' l l' Hr _ IH]; intros Hin; [now elim Hin|].
  destruct Hin as [<-|Hin].
  - exists x. split; [now left | exact Hr].
  - destruct (IH Hin) as (x' & Hx & Hr'). exists x'. split; [now right | exact Hr'].
Qed.

Lemma tree_node_same_items (t1 t2 m : value) :
  Val.get "items" t1 = Val.get "items" t2 -> tree_node t1 m -> tree_node t2 m.
Proof.
  intros E H. destruct H as [t items n Hi Hn | t items n m Hi Hn Hm].
  - apply (node_here _ items); [now rewrite <- E | exact Hn].
  - apply (node_below _ items n); [now rewrite <- E | exact Hn | exact Hm].
Qed.

(** The two shapes of a subtree, and what each makes of the node. *)
Lemma attach_shapes (depth : nat) (ls : list value) (fs : list (string * value))
  (subtree : value) :
  In (JObj fs) ls ->
  buildMenuTree depth (JArr ls) (Val.get "id" (JObj fs)) = Ok subtree ->
  (subtree = JObj [] /\ attach (JObj fs) subtree = JObj fs
   /\ filter (is_child_of (default_parent (Val.get "id" (JObj fs)))) ls = [])
  \/ (exists items,
         subtree = JObj [("items", JArr items)] /\ items <> []
         /\ attach (JObj fs) subtree = JObj (Val.set "items" (JArr items) fs)
         /\ filter (is_child_of (default_parent (Val.get "id" (JObj fs)))) ls <> []).
Proof.
  intros Hin H. destruct depth as [|d]; [discriminate|].
  assert (Hne : ls <> []) by (intros ->; now elim Hin).
  destruct (buildMenuTree_array d ls _ subtree Hne H) as [[Hc ->] | (items & Hc & -> & HF)].
  - left. repeat split. exact Hc.
  - right. exists items. repeat split; [|exact Hc].
    intros ->. inversion HF as [E|]; subst. now elim Hc.
Qed.

Lemma built_nodes (ls : list value) :
  (forall link, In link ls -> Val.has_key "items" (own_properties link) = false) ->
  forall depth parent tree,
    buildMenuTree depth (JArr ls) parent = Ok tree ->
    forall n, tree_node tree n ->
      Val.get "items" n <> JArr []
      /\ ((forall l, In l ls ->
             is_child_of (default_parent (Val.get "id" n)) l = false) ->
          Val.has_key "items" (own_properties n) = false).
Proof.
  intros Hflat. induction depth as [|d IH]; intros parent tree H n Hn; [discriminate|].
  destruct ls as [|l0 ls'] eqn:Els.
  { rewrite buildMenuTree_empty in H by reflexivity. injection H as <-.
    inversion Hn as [t items x Hi Hx | t items x m Hi Hx _]; subst;
      simpl in Hi; injection Hi as <-; now elim Hx. }
  rewrite <- Els in *.
  assert (Hne : ls <> []) by (rewrite Els; discriminate).
  destruct (buildMenuTree_array d ls parent tree Hne H)
    as [[_ ->] | (items & _ & -> & HF)].
  { inversion Hn as [t its x Hi _ | t its x m Hi _ _]; simpl in Hi; discriminate. }
  assert (Hstep : forall x, In x items ->
            exists fs subtree,
              In (JObj fs) ls
              /\ buildMenuTree d (JArr ls) (Val.get "id" (JObj fs)) = Ok subtree
              /\ x = attach (JObj fs) subtree).
  { intros x Hx. destruct (Forall2_In_right _ _ _ _ HF Hx) as (link & Hl & sub & Hs & ->).
    apply filter_In in Hl. destruct Hl as [Hl Hc].
    destruct (child_is_object _ _ Hc) as [fs ->]. now exists fs, sub. }
  assert (Hfs : forall fs, In (JObj fs) ls -> Val.assoc "items" fs = None).
  { intros fs Hin. specialize (Hflat _ Hin). unfold Val.has_key in Hflat. simpl in Hflat.
    now destruct (Val.assoc "items" fs). }
  inversion Hn as [t its x Hi Hx | t its x m Hi Hx Hm]; subst;
    simpl in Hi; injection Hi as <-.
  - destruct (Hstep n Hx) as (fs & sub & Hin & Hs & ->).
    destruct (attach_shapes d _ fs sub Hin Hs)
      as [(-> & Ha & Hc) | (its' & -> & Hne' & Ha & Hc)]; rewrite Ha in *.
    + split.
      * simpl. now rewrite (Hfs fs Hin).
      * intros _. apply (Hflat _ Hin).
    + split.
      * simpl. rewrite assoc_set_same. congruence.
      * intros Hno. exfalso. apply Hc.
        assert (Eid : Val.get "id" (JObj (Val.set "items" (JArr its') fs))
                      = Val.get "id" (JObj fs)).
        { simpl. now rewrite assoc_set_other by discriminate. }
        rewrite Eid in Hno.
        now apply filter_none.
  - destruct (Hstep x Hx) as (fs & sub & Hin & Hs & ->).
    destruct (attach_shapes d _ fs sub Hin Hs)
      as [(-> & Ha & Hc) | (its' & -> & Hne' & Ha & Hc)]; rewrite Ha in *.
    + exfalso. inversion Hm as [t its0 y Hi _ | t its0 y m Hi _ _]; subst;
        simpl in Hi; rewrite (Hfs fs Hin) in Hi; discriminate.
    + apply (IH (Val.get "id" (JObj fs)) _ Hs).
      apply (tree_node_same_items (JObj (Val.set "items" (JArr its') fs))); [|exact Hm].
      simpl. now rewrite assoc_set_same.
Qed.

(** C6.  [buildMenuTree] returns the empty forest for an empty input.
    For a non-empty input it keeps, in order, the links whose parent is
    the given id and attaches to each the tree built for its own id.
    A menu whose parent links descend is built whenever the stack is
    deep enough.  The links [a] (root), [b] and [c] (children of [a])
    give one root [a] whose items are [b] and [c], in that order, and
    every link is a node of the tree. *)
Theorem C6_menu_tree :
  (forall depth parent,
      buildMenuTree (S depth) (JArr []) parent = Ok (JObj [("items", JArr [])]))
  /\ (forall depth ls parent tree,
         ls <> [] ->
         buildMenuTree (S depth) (JArr ls) parent = Ok tree ->
         let children := filter (is_child_of (default_parent parent)) ls in
         (children = [] /\ tree = JObj [])
         \/ (exists items,
                children <> [] /\ tree = JObj [("items", JArr items)]
                /\ Forall2
                     (fun link item =>
                        exists subtree,
                          buildMenuTree depth (JArr ls) (Val.get "id" link)
                          = Ok subtree
                          /\ item = attach link subtree)
                     children items))
  /\ (forall ls (rank : value -> nat),
         (forall link, In link ls ->
            rank (default_parent (Val.get "id" link))
            < rank (Val.get "parent" link)) ->
         forall depth parent,
           rank (default_parent parent) < depth ->
           exists tree, buildMenuTree depth (JArr ls) parent = Ok tree)
  /\ (let a := JObj [("id", JStr "a"); ("parent", JStr "")] in
      let b := JObj [("id", JStr "b"); ("parent", JStr "a")] in
      let c := JObj [("id", JStr "c"); ("parent", JStr "a")] in
      let tree :=
        JObj [("items",
               JArr [JObj [("id", JStr "a"); ("parent", JStr "");
                           ("items", JArr [b; c])]])] in
      (forall depth,
          buildMenuTree (3 + depth) (JArr [a; b; c]) JUndefined = Ok tree)
      /\ (forall link, In link [a; b; c] ->
            exists n, tree_node tree n /\ Val.get "id" n = Val.get "id" link)).
Proof.
  split; [intros; reflexivity|].
  split; [exact buildMenuTree_array|].
  split; [exact buildMenuTree_total|].
  cbv zeta. split.
  - intros depth. rewrite Nat.add_comm. apply buildMenuTree_deeper_by. reflexivity.
  - intros link [<-|[<-|[<-|[]]]].
    + eexists. split.
      * eapply node_here; [reflexivity | now left].
      * reflexivity.
    + eexists. split.
      * eapply node_below; [reflexivity | now left |].
        eapply node_here; [reflexivity | now left].
      * reflexivity.
    + eexists. split.
      * eapply node_below; [reflexivity | now left |].
        eapply node_here; [reflexivity | right; now left].
      * reflexivity.
Qed.

Lemma C6_menu_tree_witness :
  exists tree,
    buildMenuTree 3 (JArr Fixture.main_links) (JStr "") = Ok tree.
Proof.
  apply (proj1 (proj2 (proj2 C6_menu_tree)) Fixture.main_links
           (fun v => match v with
                     | JStr s =>
                         if String.eqb s "" then 2
                         else if String.eqb s "a" then 1 else 0
                     | _ => 0
                     end)).
  - intros link [<-|[<-|[<-|[]]]]; simpl; lia.
  - simpl. lia.
Defined.

(** C9.  On a non-empty list none of whose links has the given parent,
    [buildMenuTree] returns an object without an [items] key, where an
    empty or missing list gives [{ items: [] }].  So in a tree built
    from flat links no node carries an empty [items], and a node whose
    id is nobody's parent carries no [items] key at all; and the tree
    that [getMenu] returns for a non-empty menu without root-level
    links is [undefined]. *)
Theorem C9_empty_branch_has_no_items_key :
  (forall depth ls parent,
      ls <> [] ->
      (forall link, In link ls ->
         is_child_of (default_parent parent) link = false) ->
      buildMenuTree (S depth) (JArr ls) parent = Ok (JObj []))
  /\ (forall depth links parent,
         links = JArr [] \/ links = JUndefined \/ links = JNull ->
         buildMenuTree (S depth) links parent
         = Ok (JObj [("items", JArr [])]))
  /\ (Val.has_key "items" (own_properties (JObj [])) = false
      /\ Val.has_key "items" (own_properties (JObj [("items", JArr [])])) = true)
  /\ (forall ls depth parent tree,
         (forall link, In link ls ->
            Val.has_key "items" (own_properties link) = false) ->
         buildMenuTree depth (JArr ls) parent = Ok tree ->
         forall n, tree_node tree n ->
           Val.get "items" n <> JArr []
           /\ ((forall l, In l ls ->
                  is_child_of (default_parent (Val.get "id" n)) l = false) ->
               Val.has_key "items" (own_properties n) = false))
  /\ (forall env depth name options st ls st',
         fetch_menu_items env name options st = (Ok (JArr ls), st') ->
         ls <> [] ->
         (forall link, In link ls -> is_child_of (JStr "") link = false) ->
         getMenu env (S depth) name options st
         = (Ok (mkMenu (JArr ls) JUndefined), st')).
Proof.
  split.
  { intros depth ls parent Hne Hno. destruct ls as [|l0 ls]; [congruence|].
    rewrite buildMenuTree_unfold. now rewrite filter_none. }
  split.
  { intros depth links parent [->|[->| ->]]; reflexivity. }
  split; [split; reflexivity|].
  split.
  { intros ls depth parent tree Hflat. now apply built_nodes. }
  intros env depth name options st ls st' Hitems Hne Hno.
  unfold getMenu, bind. rewrite Hitems. unfold lift.
  destruct ls as [|l0 ls]; [congruence|].
  rewrite buildMenuTree_unfold. rewrite filter_none by exact Hno.
  reflexivity.
Qed.

Lemma C9_empty_branch_has_no_items_key_witness :
  fst (getMenu Fixture.env 1 "orphans" default_options
         (Fixture.start Fixture.drupal))
  = Ok (mkMenu (JArr Fixture.orphan_links) JUndefined).
Proof.
  rewrite (proj2 (proj2 (proj2 (proj2 C9_empty_branch_has_no_items_key)))
             Fixture.env 0 "orphans" default_options
             (Fixture.start Fixture.drupal) Fixture.orphan_links
             (snd (fetch_menu_items Fixture.env "orphans" default_options
                     (Fixture.start Fixture.drupal)))).
  - reflexivity.
  - vm_compute. reflexivity.
  - discriminate.
  - intros link [<-|[<-|[]]]; reflexivity.
Defined.

(** ** UrlBuilder *)








(** ** AuthTokenManager *)

(** The state after the token check: one more clock reading when a
    token is cached. *)
Lemma token_still_valid_run (env : Env) (st : State) :
  token_still_valid env st =
  if Val.truthy (_token (client st))
  then (Ok match tokenExpiresOn (client st) with
           | Some expiry => (Date_now env (ticks st) <? expiry)%Z
           | None => false
           end,
        mkState (client st) (S (ticks st)) (sent st) (calls st))
  else (Ok false, st).
Proof.
  unfold token_still_valid, bind, get_client, now, ret.
  destruct (Val.truthy (_token (client st))); reflexivity.
Qed.



(** ** RequestExecutor *)

Lemma set_token_calls (env : Env) (token : value) (st : State) :
  calls (snd (set_token env token st)) = calls st
  /\ sent (snd (set_token env token st)) = sent st.
Proof.
  unfold set_token, bind, get_client, put_client, now, lift, Val.get_strict.
  cbn [client ticks sent calls].
  destruct (Val.nullish token); split; reflexivity.
Qed.

(** [getAccessToken] never calls the client's own [fetch]. *)
Lemma getAccessToken_calls (env : Env) (st : State) :
  calls (snd (getAccessToken env st)) = calls st.
Proof.
  unfold getAccessToken, bind at 1, get_client. cbv beta iota.
  destruct (_auth (client st)) as [| header | clientId clientSecret url];
    try reflexivity.
  destruct (negb (Js.truthy_str clientId) || negb (Js.truthy_str clientSecret));
    [reflexivity|].
  unfold bind at 1. rewrite token_still_valid_run.
  destruct (Val.truthy (_token (client st)));
    [destruct (match tokenExpiresOn (client st) with
               | Some expiry => (Date_now env (ticks st) <? expiry)%Z
               | None => false
               end); [reflexivity|] |];
    unfold bind at 1, dispatch; cbn [client ticks sent calls];
    (match goal with
     | |- context [platform_fetch env ?h ?r] =>
         destruct (platform_fetch env h r) as [response|e]; [|reflexivity]
     end);
    (destruct (resp_ok response); [|reflexivity]);
    cbn [negb]; unfold bind at 1, lift;
    (destruct (response_json env response) as [result|e]; [|reflexivity]);
    unfold bind at 1;
    (match goal with
     | |- context [set_token env result ?s] =>
         pose proof (proj1 (set_token_calls env result s)) as Hc;
         destruct (set_token env result s) as [[[]|e] s']
     end); exact Hc.
Qed.

Lemma authorize_calls (env : Env) (init : FetchOptions) (st : State) :
  calls (snd (authorize env init st)) = calls st.
Proof.
  unfold authorize. destruct (truthy_flag (init_withAuth init)); [|reflexivity].
  unfold bind at 1, get_client. cbv beta iota.
  destruct (_auth (client st)) eqn:Ea; try reflexivity;
    unfold bind; pose proof (getAccessToken_calls env st) as Hc;
    destruct (getAccessToken env st) as [[token|e] s']; try exact Hc;
    destruct (Val.truthy token); exact Hc.
Qed.

Lemma authorize_off (env : Env) (init : FetchOptions) (st : State) :
  truthy_flag (init_withAuth init) = false ->
  authorize env init st = (Ok init, st).
Proof. intros H. unfold authorize. now rewrite H. Qed.

Lemma prepare_run (env : Env) (input : string) (init : FetchOptions) (st : State) :
  prepare env input init st
  = authorize env
      (with_headers (Val.spread (_headers (client st)) (init_headers init)) init)
      (spied st (mkRequest input init)).
Proof. reflexivity. Qed.

Lemma prepare_calls (env : Env) (input : string) (init : FetchOptions) (st : State) :
  calls (snd (prepare env input init st)) = (calls st ++ [mkRequest input init])%list.
Proof. rewrite prepare_run, authorize_calls. reflexivity. Qed.





(** The run of [fetch], after its first half. *)
Lemma fetch_run (env : Env) (input : string) (init : FetchOptions) (st : State) :
  fetch env input init st =
  match prepare env input init st with
  | (Throw e, st1) => (Throw e, st1)
  | (Ok init1, st1) =>
      let request := mkRequest input init1 in
      let st2 :=
        mkState (client st1) (ticks st1) (sent st1 ++ [request])%list (calls st1) in
      match fetcher (client st1) with
      | Some custom => (custom (sent st1) request, st2)
      | None =>
          match platform_fetch env (sent st1) request with
          | Throw e => (Throw e, st2)
          | Ok response =>
              if resp_ok response then (Ok response, st2)
              else
                match formatErrorResponse env response with
                | Ok message => (Throw (Error (Val.error_message message)), st2)
                | Throw e => (Throw e, st2)
                end
          end
      end
  end.
Proof.
  unfold fetch, bind at 1.
  destruct (prepare env input init st) as [[init1|e] st1]; [|reflexivity].
  unfold bind at 1, get_client. cbv beta iota.
  destruct (fetcher (client st1)) as [custom|]; [reflexivity|].
  unfold bind at 1, dispatch.
  destruct (platform_fetch env (sent st1) (mkRequest input init1)) as [response|e];
    [|reflexivity].
  destruct (resp_ok response); [reflexivity|].
  unfold bind, lift.
  destruct (formatErrorResponse env response); reflexivity.
Qed.

(** Each call of [fetch] is recorded once, whatever comes of it. *)
Lemma fetch_calls (env : Env) (input : string) (init : FetchOptions) (st : State) :
  calls (snd (fetch env input init st)) = (calls st ++ [mkRequest input init])%list.
Proof.
  rewrite fetch_run. pose proof (prepare_calls env input init st) as Hc.
  destruct (prepare env input init st) as [[init1|e] st1]; [|exact Hc].
  cbn [snd] in Hc. cbv zeta.
  destruct (fetcher (client st1)); [exact Hc|].
  destruct (platform_fetch env (sent st1) (mkRequest input init1)) as [response|e];
    [|exact Hc].
  destruct (resp_ok response); [exact Hc|].
  destruct (formatErrorResponse env response); exact Hc.
Qed.

(** Without [withAuth], the request goes out with the merged headers
    and nothing else. *)
Lemma fetch_sent_without_auth (env : Env) (input : string) (init : FetchOptions)
  (st : State) :
  truthy_flag (init_withAuth init) = false ->
  sent (snd (fetch env input init st))
  = (sent st
     ++ [mkRequest input
           (with_headers (Val.spread (_headers (client st)) (init_headers init))
              init)])%list.
Proof.
  intros H. rewrite fetch_run, prepare_run, authorize_off by exact H.
  cbv zeta. cbn [client sent spied].
  destruct (fetcher (client st)); [reflexivity|].
  match goal with
  | |- context [platform_fetch env ?h ?r] =>
      destruct (platform_fetch env h r) as [response|e]; [|reflexivity]
  end.
  destruct (resp_ok response); [reflexivity|].
  destruct (formatErrorResponse env response); reflexivity.
Qed.





(** ** ResourceResolver *)

Lemma subrequests_path_slash (locale defaultLocale : option string) :
  Js.starts_with_slash (subrequests_path locale defaultLocale) = true.
Proof.
  unfold subrequests_path. destruct locale as [l|]; [|reflexivity].
  destruct (Js.truthy_str l && Js.truthy_opt defaultLocale
            && differ (Some l) defaultLocale); reflexivity.
Qed.

Lemma subrequests_call_ok (c : Client) (path : string) (options : ResourceOptions) :
  subrequests_call c path options = Ok (batched_request c path options).
Proof.
  unfold subrequests_call, buildUrl.
  rewrite subrequests_path_slash. reflexivity.
Qed.

Lemma getResourceByPath_run (env : Env) (path : string)
  (options : ResourceOptions) (st : State) :
  path <> "" ->
  getResourceByPath env path options st =
  let call := batched_request (client st) path options in
  match fetch env (req_input call) (req_init call) st with
  | (Throw e, st1) => (Throw e, st1)
  | (Ok response, st1) =>
      match JSON_parse env (resp_body response) with
      | None => (Throw SyntaxError, st1)
      | Some json =>
          (read_subresponses env (client st1)
             (or_default true (o_deserialize options)) json, st1)
      end
  end.
Proof.
  intros Hne. apply truthy_str_iff in Hne.
  unfold getResourceByPath, bind at 1, get_client. cbv beta iota.
  rewrite Hne. cbn [negb]. unfold bind at 1, lift at 1.
  rewrite subrequests_call_ok. cbv zeta.
  unfold bind at 1.
  destruct (fetch env _ _ st) as [[response|e] st1]; [|reflexivity].
  unfold bind at 1, lift at 1, response_json, parse_json. cbn [Val.to_str].
  destruct (JSON_parse env (resp_body response)) as [json|]; reflexivity.
Qed.

Lemma getResourceByPath_state (env : Env) (path : string)
  (options : ResourceOptions) (st : State) :
  path <> "" ->
  let call := batched_request (client st) path options in
  snd (getResourceByPath env path options st)
  = snd (fetch env (req_input call) (req_init call) st).
Proof.
  intros Hne call. rewrite getResourceByPath_run by exact Hne. cbv zeta. fold call.
  destruct (fetch env _ _ st) as [[response|e] st1]; [|reflexivity].
  destruct (JSON_parse env (resp_body response)); reflexivity.
Qed.



(** With [withAuth] and no auth configured, the call of [fetch] is
    made and recorded, and fails before anything reaches the
    transport. *)
Remark getResourceByPath_without_auth :
  let run :=
    getResourceByPath Fixture.env "/about"
      (mkOptions None None (Some true) None None None None)
      (Fixture.start Fixture.drupal_anonymous) in
  fst run
  = Throw (Error
      "auth is not configured. See https://next-drupal.org/docs/client/auth")
  /\ List.length (calls (snd run)) = 1
  /\ sent (snd run) = [].
Proof. cbv zeta. repeat split. Qed.

(** A path that resolves: the resource comes back through the
    formatter. *)
Remark getResourceByPath_resolves :
  fst (getResourceByPath Fixture.env "/about" default_options
         (Fixture.start Fixture.drupal))
  = Ok (Val.get "data" Fixture.article).
Proof. reflexivity. Qed.




Lemma assoc_remove_same {A : Type} (k : string) (l : list (string * A)) :
  Val.assoc k (Val.remove k l) = None.
Proof.
  induction l as [|[k' v] l IH]; simpl; [reflexivity|].
  destruct (String.eqb k k') eqn:E; [exact IH|].
  simpl. now rewrite E.
Qed.

Lemma assoc_remove_other {A : Type} (k k' : string) (l : list (string * A)) :
  k <> k' -> Val.assoc k' (Val.remove k l) = Val.assoc k' l.
Proof.
  intros Hne. induction l as [|[k0 v] l IH]; simpl; [reflexivity|].
  destruct (String.eqb_spec k k0) as [->|].
  - destruct (String.eqb_spec k' k0); [congruence | exact IH].
  - simpl. now rewrite IH.
Qed.

(** What [resource_params] does to the [resourceVersion] key, and
    that it leaves the other keys alone. *)
Lemma resource_params_spec (isVersionable : bool) (params : list (string * value)) :
  let supplied := or_default JUndefined (Val.assoc "resourceVersion" params) in
  let out := resource_params isVersionable params in
  (Val.truthy supplied || isVersionable = true ->
   Val.assoc "resourceVersion" out
   = Some match supplied with
          | JUndefined => JStr "rel:latest-version"
          | v => v
          end)
  /\ (Val.truthy supplied || isVersionable = false ->
      Val.has_key "resourceVersion" out = false)
  /\ (forall k, k <> "resourceVersion" ->
                Val.assoc k out = Val.assoc k params).
Proof.
  intros supplied out. unfold out, resource_params, versionable. fold supplied.
  replace (if Val.truthy supplied then true else isVersionable)
    with (Val.truthy supplied || isVersionable)
    by (destruct (Val.truthy supplied); reflexivity).
  destruct (Val.truthy supplied || isVersionable); repeat split;
    try discriminate.
  - intros _. rewrite assoc_set_same. f_equal. now destruct supplied.
  - intros k Hk. rewrite assoc_set_other by congruence.
    apply assoc_remove_other. congruence.
  - intros _. unfold Val.has_key. now rewrite assoc_remove_same.
  - intros k Hk. apply assoc_remove_other. congruence.
Qed.

(** A spread leaves a key alone that the spread object does not hold. *)
Lemma spread_keeps {A : Type} (k : string) (a b : list (string * A)) :
  Val.has_key k b = false ->
  Val.assoc k (Val.spread a b) = Val.assoc k a.
Proof.
  unfold Val.has_key, Val.spread. revert a.
  induction b as [|[k0 v0] b IH]; intros a H; [reflexivity|].
  cbn [fold_left fst snd]. simpl in H.
  destruct (String.eqb_spec k k0) as [->|Hne]; [discriminate|].
  rewrite IH by exact H. apply assoc_set_other. congruence.
Qed.

Lemma join_path_nonempty (prefix slug : string) :
  prefix
  ++ (if negb (Js.ends_with_slash prefix) && negb (Js.starts_with_slash slug)
      then "/" ++ slug else slug) <> "".
Proof.
  destruct prefix as [|c p]; [|discriminate].
  destruct slug as [|d s]; [discriminate|].
  simpl. destruct (Ascii.eqb d Js.slash); discriminate.
Qed.

Lemma getPathFromContext_nonempty (c : Client) (context : Context)
  (prefix : option string) :
  getPathFromContext c context prefix <> "".
Proof.
  unfold getPathFromContext.
  match goal with
  | |- context [if negb (Js.truthy_str ?s) then _ else _] =>
      destruct (negb (Js.truthy_str s))
  end; apply join_path_nonempty.
Qed.

Lemma getResourceByPath_calls (env : Env) (path : string)
  (options : ResourceOptions) (st : State) :
  path <> "" ->
  calls (snd (getResourceByPath env path options st))
  = (calls st ++ [batched_request (client st) path options])%list.
Proof.
  intros Hne. rewrite getResourceByPath_state by exact Hne.
  cbv zeta. rewrite fetch_calls. reflexivity.
Qed.

Lemma getResourceFromContext_run (env : Env) (type : string) (context : Context)
  (options : ResourceOptions) (st : State) :
  getResourceFromContext env type context options st
  = getResourceByPath env
      (getPathFromContext (client st) context
         (Some (or_default "/" (o_prefix options))))
      (context_options (client st) type context options) st.
Proof. reflexivity. Qed.

(** C8 (amended).  The resolved resource is fetched as versionable
    exactly when a truthy [resourceVersion] is supplied, or
    [isVersionable] is on: the caller's [options.isVersionable] when
    given, and otherwise [false] in [getResourceByPath] and "the type
    begins with [node--]" in [getResourceFromContext].  The supplied
    [resourceVersion] is the one in the params, and from a context the
    one of the preview data when the params hold none.  When
    versionable the query parameters hold [resourceVersion], with
    [rel:latest-version] when none is supplied; when not, they hold no
    [resourceVersion]; the other parameters are as given. *)
Theorem C8_resource_version :
  (forall (env : Env) (st : State) (path : string) (options : ResourceOptions),
      path <> "" ->
      let given := or_default [] (o_params options) in
      let supplied := or_default JUndefined (Val.assoc "resourceVersion" given) in
      let is_versionable :=
        Val.truthy supplied || or_default false (o_isVersionable options) in
      exists routed params request,
        calls (snd (getResourceByPath env path options st))
        = (calls st ++ [request])%list
        /\ init_body (req_init request)
           = Some (BodyJson
                     (subrequests_payload routed (Qs.stringify (JObj params))))
        /\ (is_versionable = true ->
            Val.assoc "resourceVersion" params
            = Some match supplied with
                   | JUndefined => JStr "rel:latest-version"
                   | v => v
                   end)
        /\ (is_versionable = false ->
            Val.has_key "resourceVersion" params = false)
        /\ (forall k, k <> "resourceVersion" ->
                      Val.assoc k params = Val.assoc k given))
  /\ (forall (env : Env) (st : State) (type : string) (context : Context)
             (options : ResourceOptions),
         let given :=
           Val.spread
             [("resourceVersion",
               Val.get "resourceVersion" (ctx_previewData context))]
             (or_default [] (o_params options)) in
         let supplied :=
           or_default JUndefined (Val.assoc "resourceVersion" given) in
         let is_versionable :=
           Val.truthy supplied
           || or_default (String.prefix "node--" type) (o_isVersionable options) in
         (Val.has_key "resourceVersion" (or_default [] (o_params options)) = false ->
          supplied = Val.get "resourceVersion" (ctx_previewData context))
         /\ exists routed params request,
             calls (snd (getResourceFromContext env type context options st))
             = (calls st ++ [request])%list
             /\ init_body (req_init request)
                = Some (BodyJson
                          (subrequests_payload routed
                             (Qs.stringify (JObj params))))
             /\ (is_versionable = true ->
                 Val.assoc "resourceVersion" params
                 = Some match supplied with
                        | JUndefined => JStr "rel:latest-version"
                        | v => v
                        end)
             /\ (is_versionable = false ->
                 Val.has_key "resourceVersion" params = false)
             /\ (forall k, k <> "resourceVersion" ->
                           Val.assoc k params = Val.assoc k given)).
Proof.
  split.
  - intros env st path options Hne given supplied is_versionable.
    exists (localized_path (client st) path (o_locale options)
              (o_defaultLocale options)),
      (resource_params (or_default false (o_isVersionable options)) given),
      (batched_request (client st) path options).
    split; [now apply getResourceByPath_calls|].
    split; [reflexivity|].
    exact (resource_params_spec (or_default false (o_isVersionable options)) given).
  - intros env st type context options given supplied is_versionable.
    split.
    { intros Hk. unfold supplied, given.
      rewrite spread_keeps by exact Hk. reflexivity. }
    set (path := getPathFromContext (client st) context
                   (Some (or_default "/" (o_prefix options)))).
    set (opts := context_options (client st) type context options).
    exists (localized_path (client st) path (o_locale opts) (o_defaultLocale opts)),
      (resource_params
         (or_default (String.prefix "node--" type) (o_isVersionable options))
         given),
      (batched_request (client st) path opts).
    split.
    { rewrite getResourceFromContext_run.
      apply getResourceByPath_calls, getPathFromContext_nonempty. }
    split; [reflexivity|].
    exact (resource_params_spec
             (or_default (String.prefix "node--" type) (o_isVersionable options))
             given).
Qed.

Lemma C8_resource_version_witness :
  exists routed params request,
    calls (snd (getResourceByPath Fixture.env "/about"
                  (mkOptions None (Some true) None None None
                     (Some [("include", JStr "uid")]) None)
                  (Fixture.start Fixture.drupal)))
    = [request]
    /\ init_body (req_init request)
       = Some (BodyJson
                 (subrequests_payload routed (Qs.stringify (JObj params))))
    /\ Val.assoc "resourceVersion" params = Some (JStr "rel:latest-version")
    /\ Val.assoc "include" params = Some (JStr "uid").
Proof.
  destruct (proj1 C8_resource_version Fixture.env
              (Fixture.start Fixture.drupal) "/about"
              (mkOptions None (Some true) None None None
                 (Some [("include", JStr "uid")]) None)
              ltac:(discriminate))
    as (routed & params & request & Hc & Hb & Hv & _ & Hk).
  exists routed, params, request.
  split; [exact Hc|]. split; [exact Hb|]. split; [exact (Hv eq_refl)|].
  exact (Hk "include" ltac:(discriminate)).
Defined.

(** A [node--] type with [isVersionable: false] and no
    [resourceVersion]: no [resourceVersion] parameter is sent. *)
Lemma C8_node_type_with_versioning_off :
  String.prefix "node--" "node--article" = true
  /\ map (fun request => init_body (req_init request))
       (calls (snd (getResourceFromContext Fixture.env "node--article"
                      (mkContext (Some (SlugArray ["about"])) None None None
                         JUndefined)
                      (mkOptions None (Some false) None None None None None)
                      (Fixture.start Fixture.drupal))))
     = [Some (BodyJson
                (JArr
                   [router_request "/about";
                    JObj [("requestId", JStr "resolvedResource");
                          ("action", JStr "view");
                          ("uri", JStr "{{router.body@$.jsonapi.individual}}?");
                          ("waitFor", JArr [JStr "router"])]]))].
Proof.
  split; reflexivity.
Qed.

(* ================================================================== *)
(** * The other methods *)
(* ================================================================== *)

(** ** Paths *)

Lemma drop_trailing_slash_keeps_start (p : string) :
  Js.starts_with_slash p = true ->
  Js.drop_trailing_slash p = ""
  \/ Js.starts_with_slash (Js.drop_trailing_slash p) = true.
Proof.
  destruct p as [|c p]; [discriminate|]. intros H. cbn in H.
  destruct p as [|d p].
  - left. cbn. now rewrite H.
  - right. cbn. exact H.
Qed.

Lemma join_path_starts_with_slash (prefix slug : string) :
  prefix = "" \/ Js.starts_with_slash prefix = true ->
  Js.starts_with_slash
    (prefix
     ++ (if negb (Js.ends_with_slash prefix) && negb (Js.starts_with_slash slug)
         then "/" ++ slug else slug)) = true.
Proof.
  intros [->|H].
  - cbn. destruct (Js.starts_with_slash slug) eqn:E; [exact E | reflexivity].
  - destruct prefix as [|c p]; [discriminate|]. exact H.
Qed.

Lemma path_starts_with_slash :
  forall (c : Client) (context : Context) (prefix : option string),
    Js.starts_with_slash (getPathFromContext c context prefix) = true.
Proof.
  intros c context prefix. unfold getPathFromContext.
  set (p0 := or_default "/" prefix).
  set (p1 := if Js.starts_with_slash p0 then p0 else "/" ++ p0).
  assert (H1 : Js.starts_with_slash p1 = true).
  { unfold p1. destruct (Js.starts_with_slash p0) eqn:E; [exact E | reflexivity]. }
  set (p2 := match ctx_locale context with
             | Some locale =>
                 if Js.truthy_str locale
                    && differ (ctx_locale context) (ctx_defaultLocale context)
                 then "/" ++ locale ++ p1 else p1
             | None => p1
             end).
  assert (H2 : Js.starts_with_slash p2 = true).
  { unfold p2. destruct (ctx_locale context) as [l|]; [|exact H1].
    destruct (Js.truthy_str l && differ (Some l) (ctx_defaultLocale context));
      [reflexivity | exact H1]. }
  match goal with
  | |- context [if negb (Js.truthy_str ?s) then _ else _] =>
      destruct (negb (Js.truthy_str s))
  end; apply join_path_starts_with_slash.
  - destruct (drop_trailing_slash_keeps_start p2 H2); [now left | now right].
  - now right.
Qed.

(** X1.  Every path that [getPathFromContext] builds starts with a
    slash, whatever the slug, the prefix, the locale and the front
    page are. *)
Theorem X1_getPathFromContext_absolute :
  forall (c : Client) (context : Context) (prefix : option string),
    Js.starts_with_slash (getPathFromContext c context prefix) = true.
Proof. exact path_starts_with_slash. Qed.



Lemma ends_with_slash_app_slash (s : string) :
  Js.ends_with_slash (s ++ "/") = true.
Proof.
  induction s as [|c s IH]; [reflexivity|].
  cbn. destruct (s ++ "/") eqn:E; [destruct s; discriminate | exact IH].
Qed.

Lemma drop_leading_slashes_no_slash (s : string) :
  Js.starts_with_slash (Js.drop_leading_slashes s) = false.
Proof.
  induction s as [|c s IH]; [reflexivity|].
  cbn. destruct (Ascii.eqb c Js.slash) eqn:E; [exact IH | cbn; exact E].
Qed.

(** X3.  The path that [getResourceByPath] sends to the router when a
    locale and a default locale are given: a path that has the locale
    at index 1 is left as it is; any other path loses its leading
    slashes and is put under [/<locale>/] when the locale is not the
    default one, and under [/] when it is.  The root path keeps its
    slash and so ends in two. *)
Theorem X3_localized_path :
  forall (c : Client) (path l d : string),
    l <> "" -> d <> "" ->
    let under := if String.eqb l d then "/" else "/" ++ l ++ "/" in
    (Js.indexOf l path = Some 1 ->
     localized_path c path (Some l) (Some d) = path)
    /\ (Js.indexOf l path <> Some 1 -> path <> "/" ->
        Js.drop_leading_slashes path <> "" ->
        localized_path c path (Some l) (Some d)
        = under ++ Js.drop_leading_slashes path)
    /\ localized_path c "/" (Some l) (Some d) = under ++ "/".
Proof.
  intros c path l d Hl Hd under.
  apply truthy_str_iff in Hl, Hd.
  assert (Hbuild : forall s,
             s <> "" -> Js.starts_with_slash s = false \/ s = "/" ->
             getPathFromContext c
               (mkContext (Some (SlugArray [s])) (Some l) (Some d) None JUndefined)
               None
             = under ++ s).
  { intros s Hs Hstart. unfold getPathFromContext.
    cbn [or_default ctx_locale ctx_defaultLocale ctx_slug Js.join differ].
    rewrite Hl. apply truthy_str_iff in Hs. rewrite Hs.
    cbn [Js.starts_with_slash andb negb]. unfold under.
    change (Ascii.eqb "/" Js.slash) with true. cbv iota.
    destruct (String.eqb l d); cbn [negb].
    - reflexivity.
    - replace ("/" ++ l ++ "/") with (("/" ++ l) ++ "/") by apply string_app_assoc.
      now rewrite ends_with_slash_app_slash. }
  split; [|split].
  - intros Hi. unfold localized_path. rewrite Hi, Hl. cbn [Js.truthy_opt].
    rewrite Hd. reflexivity.
  - intros Hi Hroot Hs. unfold localized_path. rewrite Hl. cbn [Js.truthy_opt].
    rewrite Hd. cbn [andb].
    assert (Hn : match Js.indexOf l path with Some 1 => true | _ => false end = false).
    { destruct (Js.indexOf l path) as [[|[|n]]|]; try reflexivity. now elim Hi. }
    rewrite Hn. cbn [negb].
    destruct (String.eqb_spec path "/") as [E|_]; [now elim Hroot|].
    apply Hbuild; [exact Hs|]. left. apply drop_leading_slashes_no_slash.
  - unfold localized_path. rewrite Hl. cbn [Js.truthy_opt].
    rewrite Hd. cbn [andb].
    assert (Hn : match Js.indexOf l "/" with Some 1 => true | _ => false end = false).
    { destruct l as [|ch l']; [discriminate|]. cbn.
      destruct (ascii_dec ch "/"); [destruct l'; reflexivity | reflexivity]. }
    rewrite Hn. cbn [negb String.eqb]. 
    change (String.eqb "/" "/") with true. cbv iota.
    apply Hbuild; [discriminate | now right].
Qed.

Lemma X3_localized_path_witness :
  localized_path Fixture.drupal "/about" (Some "es") (Some "en") = "/es/about"
  /\ localized_path Fixture.drupal "/" (Some "es") (Some "en") = "/es//".
Proof.
  split.
  - apply (proj1 (proj2 (X3_localized_path Fixture.drupal "/about" "es" "en"
                           ltac:(discriminate) ltac:(discriminate)))).
    + vm_compute. discriminate.
    + discriminate.
    + vm_compute. discriminate.
  - apply (proj2 (proj2 (X3_localized_path Fixture.drupal "/about" "es" "en"
                           ltac:(discriminate) ltac:(discriminate)))).
Defined.

(** ** Static paths from resources *)

Lemma map_outcome_fails {A B : Type} (f : A -> Outcome B) (l : list A)
  (e : JsError) :
  (forall x y, In x l -> f x = Throw y -> y = e) ->
  (exists x, In x l /\ f x = Throw e) ->
  map_outcome f l = Throw e.
Proof.
  induction l as [|a l IH]; intros Hall [x [Hin Hx]]; [now elim Hin|].
  cbn. destruct (f a) as [y|e'] eqn:Ea.
  - destruct Hin as [<-|Hin]; [congruence|].
    rewrite IH; [reflexivity | | now exists x].
    intros x' y' Hx'. apply Hall. now right.
  - now rewrite (Hall a e' (or_introl eq_refl) Ea).
Qed.

Lemma map_outcome_strings (options : PathOptions) (paths : list string) :
  map_outcome (static_path_entry_of options) (map JStr paths)
  = Ok (buildStaticPathsParamsFromPaths paths options).
Proof.
  induction paths as [|p paths IH]; [reflexivity|].
  cbn. cbn in IH. now rewrite IH.
Qed.

Lemma flat_values_strings (paths : list string) :
  flat_values (map JStr paths) = map JStr paths.
Proof.
  induction paths as [|p paths IH]; [reflexivity|].
  unfold flat_values in *. cbn. now rewrite IH.
Qed.

Lemma flat_values_keeps (vs : list value) (v : value) :
  In v vs -> (forall l, v <> JArr l) -> In v (flat_values vs).
Proof.
  intros Hin Hv. unfold flat_values. apply in_flat_map.
  exists v. split; [exact Hin|].
  destruct v; try (now left). now elim (Hv elems).
Qed.

(** X4.  [buildStaticPathsFromResources] gives no entry for a missing
    or empty list.  When every resource has a string alias, it gives
    the entries of those aliases, the front page alias replaced by
    [/].  A resource whose alias is missing (or any value that is
    neither a string nor an array) makes it fail with a [TypeError]. *)
Theorem X4_buildStaticPathsFromResources :
  forall (c : Client) (options : PathOptions),
    (forall resources,
        Val.nullish resources = true \/ resources = JArr [] ->
        buildStaticPathsFromResources c resources options = Ok [])
    /\ (forall rs aliases,
          map (fun r => Val.get "alias" (Val.get "path" r)) rs
          = map JStr aliases ->
          buildStaticPathsFromResources c (JArr rs) options
          = Ok (buildStaticPathsParamsFromPaths
                  (map (fun a => if String.eqb a (frontPage c) then "/" else a)
                     aliases)
                  options))
    /\ (forall rs r,
          In r rs ->
          (forall s, Val.get "alias" (Val.get "path" r) <> JStr s) ->
          (forall l, Val.get "alias" (Val.get "path" r) <> JArr l) ->
          buildStaticPathsFromResources c (JArr rs) options = Throw TypeError).
Proof.
  intros c options. split; [|split].
  - intros resources [H| ->]; unfold buildStaticPathsFromResources.
    + now rewrite H.
    + reflexivity.
  - intros rs aliases H. unfold buildStaticPathsFromResources. cbn [Val.nullish].
    assert (Hp : map (alias_or_root c) rs
                 = map JStr
                     (map (fun a => if String.eqb a (frontPage c) then "/" else a)
                        aliases)).
    { revert aliases H. induction rs as [|r rs IH]; intros [|a aliases] H;
        try discriminate; [reflexivity|].
      cbn in H. injection H as Ha Hrest.
      cbn [map]. unfold alias_or_root at 1. rewrite Ha. cbn [Val.strict_eq].
      rewrite (IH aliases Hrest).
      destruct (String.eqb a (frontPage c)); reflexivity. }
    rewrite Hp, flat_values_strings.
    destruct aliases as [|a aliases]; [reflexivity|].
    cbn [map]. cbv iota.
    apply (map_outcome_strings options
             ((if String.eqb a (frontPage c) then "/" else a)
              :: map (fun a => if String.eqb a (frontPage c) then "/" else a)
                   aliases)).
  - intros rs r Hin Hs Hl. unfold buildStaticPathsFromResources. cbn [Val.nullish].
    set (alias := Val.get "alias" (Val.get "path" r)) in *.
    set (g := alias_or_root c).
    assert (Hg : g r = alias).
    { unfold g, alias_or_root. fold alias. cbv zeta.
      destruct (Val.strict_eq alias (JStr (frontPage c))) eqn:E; [|reflexivity].
      apply strict_eq_true in E. now elim (Hs (frontPage c)). }
    assert (Hin' : In alias (flat_values (map g rs))).
    { apply flat_values_keeps; [|exact Hl].
      rewrite <- Hg. now apply in_map. }
    destruct (flat_values (map g rs)) as [|v vs] eqn:E; [now elim Hin'|].
    apply map_outcome_fails.
    + intros x y _ Hx. destruct x; cbn in Hx; congruence.
    + exists alias. split; [exact Hin'|].
      clearbody alias. destruct alias; try reflexivity. now elim (Hs s).
Qed.

Lemma X4_buildStaticPathsFromResources_witness :
  buildStaticPathsFromResources Fixture.drupal
    (JArr [Site.aliased "/home"; Site.aliased "/blog/a"])
    (mkPathOptions None None)
  = Ok [mkEntry [""] None; mkEntry ["blog"; "a"] None]
  /\ buildStaticPathsFromResources Fixture.drupal
       (JArr [Site.aliased "/blog/a"; JObj [("id", JStr "8f1b")]])
       (mkPathOptions None None)
     = Throw TypeError.
Proof.
  split.
  - apply (proj1 (proj2 (X4_buildStaticPathsFromResources Fixture.drupal
                           (mkPathOptions None None)))
             [Site.aliased "/home"; Site.aliased "/blog/a"]
             ["/home"; "/blog/a"]).
    reflexivity.
  - apply (proj2 (proj2 (X4_buildStaticPathsFromResources Fixture.drupal
                           (mkPathOptions None None)))
             [Site.aliased "/blog/a"; JObj [("id", JStr "8f1b")]]
             (JObj [("id", JStr "8f1b")])).
    + right. left. reflexivity.
    + intros s. discriminate.
    + intros l. discriminate.
Defined.

(** ** Resource type entries *)

Lemma split_dashes_aux_plain (cur s : string) :
  has_dash s = false -> split_dashes_aux cur s = [cur ++ s].
Proof.
  revert cur. induction s as [|c s IH]; intros cur H.
  - cbn [split_dashes_aux]. now rewrite string_app_empty_r.
  - cbn in H. apply orb_false_elim in H. destruct H as [Hc Hs].
    cbn [split_dashes_aux]. destruct s as [|d s'].
    + reflexivity.
    + rewrite Hc. cbn [andb]. rewrite (IH _ Hs).
      now rewrite string_app_assoc.
Qed.

Lemma split_dashes_aux_first (cur id rest : string) :
  has_dash id = false ->
  split_dashes_aux cur (id ++ "--" ++ rest)
  = (cur ++ id) :: split_dashes_aux "" rest.
Proof.
  revert cur. induction id as [|c id IH]; intros cur H.
  - cbn [append split_dashes_aux]. change (Ascii.eqb "-" dash) with true.
    cbn [andb]. now rewrite string_app_empty_r.
  - cbn in H. apply orb_false_elim in H. destruct H as [Hc Hs].
    change ((String c id) ++ "--" ++ rest) with (String c (id ++ "--" ++ rest)).
    cbn [split_dashes_aux].
    destruct (id ++ "--" ++ rest) as [|d s'] eqn:E.
    + destruct id; discriminate.
    + rewrite Hc. cbn [andb]. rewrite (IH _ Hs).
      now rewrite string_app_assoc.
Qed.

Lemma default_entry_run (cfg : Config) (st : State) (id bundle : string)
  (locale : option string) :
  useDefaultResourceTypeEntry cfg = true ->
  has_dash id = false -> has_dash bundle = false ->
  getEntryForResourceType cfg (id ++ "--" ++ bundle) locale st
  = (Ok (JStr (default_entry (client st) id bundle locale)), st).
Proof.
  intros Hd Hi Hb.
  unfold getEntryForResourceType, bind, get_client, ret. rewrite Hd.
  unfold split_dashes.
  rewrite split_dashes_aux_first by exact Hi.
  rewrite split_dashes_aux_plain by exact Hb.
  reflexivity.
Qed.

(** X5.  With [useDefaultResourceTypeEntry], the entry of a resource
    type is computed without any request and leaves the state as it
    is: for the type [id--bundle] it is [baseUrl ++ apiPrefix ++
    "/id/bundle"], with the locale put before [id] when a locale is
    given.  A type without [--] gets the bundle [undefined]. *)
Theorem X5_default_entry :
  forall (cfg : Config) (st : State) (locale : option string),
    useDefaultResourceTypeEntry cfg = true ->
    let c := client st in
    (forall id bundle,
        has_dash id = false -> has_dash bundle = false ->
        getEntryForResourceType cfg (id ++ "--" ++ bundle) locale st
        = (Ok (JStr (baseUrl c ++ apiPrefix c ++ "/"
                     ++ match given_locale locale with
                        | Some l => l ++ "/" ++ id ++ "/" ++ bundle
                        | None => id ++ "/" ++ bundle
                        end)), st))
    /\ (forall type,
          has_dash type = false ->
          getEntryForResourceType cfg type locale st
          = (Ok (JStr (baseUrl c ++ apiPrefix c ++ "/"
                       ++ match given_locale locale with
                          | Some l => l ++ "/" ++ type ++ "/undefined"
                          | None => type ++ "/undefined"
                          end)), st)).
Proof.
  intros cfg st locale Hd c. split.
  - intros id bundle Hi Hb. now apply default_entry_run.
  - intros type Ht.
    unfold getEntryForResourceType, bind, get_client, ret. rewrite Hd.
    unfold split_dashes. rewrite split_dashes_aux_plain by exact Ht.
    reflexivity.
Qed.

Lemma X5_default_entry_witness :
  getEntryForResourceType Site.config_default_entry "node--article" (Some "es")
    (Fixture.start Fixture.drupal)
  = (Ok (JStr "https://cms.example.com/jsonapi/es/node/article"),
     Fixture.start Fixture.drupal).
Proof.
  apply (proj1 (X5_default_entry Site.config_default_entry
                  (Fixture.start Fixture.drupal) (Some "es") eq_refl)
           "node" "article"); reflexivity.
Defined.




(** ** Resources and collections *)

Lemma starts_with_slash_app (a b : string) :
  a <> "" -> Js.starts_with_slash (a ++ b) = Js.starts_with_slash a.
Proof. destruct a; [congruence | reflexivity]. Qed.


Lemma default_entry_no_slash (c : Client) (id bundle : string)
  (locale : option string) (rest : string) :
  baseUrl c <> "" -> Js.starts_with_slash (baseUrl c) = false ->
  Js.starts_with_slash (default_entry c id bundle locale ++ rest) = false.
Proof.
  intros Hne Hs. unfold default_entry.
  rewrite string_app_assoc. now rewrite starts_with_slash_app.
Qed.






(** ** Requests without auth *)

Lemma spread_nil {A : Type} (a : list (string * A)) : Val.spread a [] = a.
Proof. reflexivity. Qed.










(** ** Preview URLs *)

(** X11.  [getResourcePreviewUrl] gives [null] for an empty slug
    without any request.  For any other slug it resolves the path with
    one batched call of [fetch], authenticated unless the options turn
    [withAuth] off, whatever the client's own [withAuth] is.  Of the
    entity found it gives the path alias, put under [/langcode] when
    the entity is not in its default language; no entity gives [null],
    and an entity without a path fails with a message naming its
    type. *)
Theorem X11_getResourcePreviewUrl :
  forall (env : Env) (st : State) (slug : string) (options : ResourceOptions),
    let run := getResourcePreviewUrl env slug options st in
    (slug = "" -> run = (Ok JNull, st))
    /\ (slug <> "" ->
        exists request,
          calls (snd run) = (calls st ++ [request])%list
          /\ init_method (req_init request) = Some "POST"
          /\ init_withAuth (req_init request)
             = Some (or_default true (o_withAuth options)))
    /\ (forall entity st1,
          getResourceByPath env slug (preview_options options) st
          = (Ok entity, st1) ->
          let path := Val.get "path" entity in
          (Val.truthy entity = false -> run = (Ok JNull, st1))
          /\ (Val.truthy entity = true -> Val.truthy path = false ->
              run = (Throw (Error
                       ("The path attribute is missing for entity type "
                        ++ Val.to_str (Val.get "type" entity))), st1))
          /\ (Val.truthy entity = true -> Val.truthy path = true ->
              run = (Ok (if Val.truthy (Val.get "default_langcode" entity)
                         then Val.get "alias" path
                         else JStr ("/" ++ Val.to_str (Val.get "langcode" path)
                                    ++ Val.to_str (Val.get "alias" path))),
                     st1))).
Proof.
  intros env st slug options run. split; [|split].
  - intros ->. reflexivity.
  - intros Hne.
    exists (batched_request (client st) slug (preview_options options)).
    split; [|split; reflexivity].
    unfold run, getResourcePreviewUrl, bind.
    rewrite <- (getResourceByPath_calls env slug (preview_options options) st Hne).
    destruct (getResourceByPath env slug (preview_options options) st)
      as [[entity|e] st1]; reflexivity.
  - intros entity st1 Hrun path.
    unfold run, getResourcePreviewUrl, bind. rewrite Hrun.
    unfold lift, preview_url_of. fold path.
    split; [|split].
    + intros H. now rewrite H.
    + intros H1 H2. now rewrite H1, H2.
    + intros H1 H2. rewrite H1, H2. cbn [negb].
      destruct (Val.truthy (Val.get "default_langcode" entity)); reflexivity.
Qed.

Lemma X11_getResourcePreviewUrl_witness :
  getResourcePreviewUrl Fixture.env "" default_options
    (Fixture.start Fixture.drupal)
  = (Ok JNull, Fixture.start Fixture.drupal)
  /\ fst (getResourcePreviewUrl Fixture.env "/about" default_options
            (Fixture.start Fixture.drupal))
     = Throw (Error
         "The path attribute is missing for entity type node--article").
Proof.
  split.
  - apply (proj1 (X11_getResourcePreviewUrl Fixture.env
                    (Fixture.start Fixture.drupal) "" default_options)).
    reflexivity.
  - eassert (E : getResourceByPath Fixture.env "/about"
                   (preview_options default_options)
                   (Fixture.start Fixture.drupal) = (Ok _, _))
      by (vm_compute; reflexivity).
    rewrite (proj1 (proj2 (proj2 (proj2
               (X11_getResourcePreviewUrl Fixture.env
                  (Fixture.start Fixture.drupal) "/about" default_options))
               _ _ E)) eq_refl eq_refl).
    reflexivity.
Defined.

(** ** Menus whose links loop *)

Lemma buildMenuTree_only_range_error (depth : nat) (ls : list value)
  (parent : value) (e : JsError) :
  buildMenuTree depth (JArr ls) parent = Throw e -> e = RangeError.
Proof.
  revert parent. induction depth as [|depth IH]; intros parent.
  - cbn. congruence.
  - destruct ls as [|l0 ls]; [discriminate|].
    rewrite buildMenuTree_unfold.
    destruct (filter (is_child_of (default_parent parent)) (l0 :: ls))
      as [|x xs]; [discriminate|].
    generalize (x :: xs). intros children.
    induction children as [|link children IHc]; [discriminate|].
    cbn [map_outcome].
    destruct (buildMenuTree depth (JArr (l0 :: ls)) (Val.get "id" link))
      as [t|e'] eqn:E.
    + intros H. apply IHc.
      destruct (map_outcome _ children) as [items|e'']; [discriminate|].
      exact H.
    + intros [= <-]. now apply (IH (Val.get "id" link)).
Qed.

(** X12.  A menu whose parent links loop cannot be built: when every
    link id of a set has, among the links, a child whose id is again in
    the set, [buildMenuTree] from a parent of the set fails with a
    [RangeError] whatever stack depth it is given. *)
Theorem X12_menu_loop_overflows :
  forall (loop : value -> Prop) (ls : list value),
    (forall p, loop p ->
       exists link,
         In link ls /\ is_child_of (default_parent p) link = true
         /\ loop (Val.get "id" link)) ->
    forall (depth : nat) (parent : value),
      loop parent ->
      buildMenuTree depth (JArr ls) parent = Throw RangeError.
Proof.
  intros loop ls Hloop depth. induction depth as [|depth IH]; intros parent Hp.
  - reflexivity.
  - destruct (Hloop parent Hp) as [link [Hin [Hchild Hid]]].
    destruct ls as [|l0 ls]; [now elim Hin|].
    rewrite buildMenuTree_unfold.
    assert (Hc : In link (filter (is_child_of (default_parent parent)) (l0 :: ls)))
      by (apply filter_In; now split).
    destruct (filter (is_child_of (default_parent parent)) (l0 :: ls))
      as [|x xs]; [now elim Hc|].
    rewrite (map_outcome_fails _ (x :: xs) RangeError); [reflexivity| |].
    + intros y e _ Hy.
      destruct (buildMenuTree depth (JArr (l0 :: ls)) (Val.get "id" y))
        as [t|e'] eqn:E; [discriminate|].
      injection Hy as <-. now apply buildMenuTree_only_range_error in E.
    + exists link. split; [exact Hc|]. now rewrite (IH _ Hid).
Qed.

Lemma X12_menu_loop_overflows_witness :
  buildMenuTree 1000 (JArr [Fixture.link "a" "b"; Fixture.link "b" "a"]) (JStr "a")
  = Throw RangeError.
Proof.
  apply (X12_menu_loop_overflows
           (fun p => p = JStr "a" \/ p = JStr "b")
           [Fixture.link "a" "b"; Fixture.link "b" "a"]).
  - intros p [->| ->].
    + exists (Fixture.link "b" "a").
      split; [right; left; reflexivity|]. split; [reflexivity|]. now right.
    + exists (Fixture.link "a" "b").
      split; [left; reflexivity|]. split; [reflexivity|]. now left.
  - now left.
Defined.

(** ** Tokens and the [Authorization] header *)

Lemma getAccessToken_run (env : Env) (st : State)
  (clientId clientSecret url : string) :
  _auth (client st) = AuthCredentials clientId clientSecret url ->
  clientId <> "" -> clientSecret <> "" ->
  getAccessToken env st =
  let c := client st in
  let valid :=
    Val.truthy (_token c)
    && match tokenExpiresOn c with
       | Some expiry => (Date_now env (ticks st) <? expiry)%Z
       | None => false
       end in
  let k := if Val.truthy (_token c) then S (ticks st) else ticks st in
  if valid then (Ok (_token c), mkState c (S (ticks st)) (sent st) (calls st))
  else
    let request := token_request c env clientId clientSecret url in
    let st1 := mkState c k (sent st ++ [request])%list (calls st) in
    match platform_fetch env (sent st) request with
    | Throw e => (Throw e, st1)
    | Ok response =>
        if resp_ok response then
          match JSON_parse env (resp_body response) with
          | None => (Throw SyntaxError, st1)
          | Some result =>
              if Val.nullish result
              then (Throw TypeError,
                    mkState (stored c result (tokenExpiresOn c)) (S k)
                      (sent st ++ [request])%list (calls st))
              else (Ok result,
                    mkState (stored c result (expiry_of (Date_now env k) result))
                      (S k) (sent st ++ [request])%list (calls st))
          end
        else (Throw (Error (resp_statusText response)), st1)
    end.
Proof.
  intros Hauth Hid Hsecret. apply truthy_str_iff in Hid, Hsecret.
  unfold getAccessToken. unfold bind at 1. unfold get_client.
  cbv beta iota zeta. rewrite Hauth, Hid, Hsecret. cbn [negb orb].
  unfold bind at 1. rewrite token_still_valid_run.
  destruct (Val.truthy (_token (client st))) eqn:Et; cbn [andb].
  - destruct (match tokenExpiresOn (client st) with
              | Some expiry => (Date_now env (ticks st) <? expiry)%Z
              | None => false
              end); [reflexivity|].
    unfold bind at 1, dispatch. cbn [sent client ticks calls].
    destruct (platform_fetch env (sent st) _) as [response|e]; [|reflexivity].
    destruct (resp_ok response); [|reflexivity].
    cbn [negb]. unfold bind at 1, lift, response_json, parse_json.
    cbn [Val.to_str].
    destruct (JSON_parse env (resp_body response)) as [result|]; [|reflexivity].
    unfold set_token, bind, get_client, put_client, now, lift, ret,
      Val.get_strict.
    cbn [client ticks sent calls].
    destruct (Val.nullish result); reflexivity.
  - unfold bind at 1, dispatch.
    destruct (platform_fetch env (sent st) _) as [response|e];
      [|now destruct st].
    destruct (resp_ok response); [|now destruct st].
    cbn [negb]. unfold bind at 1, lift, response_json, parse_json.
    cbn [Val.to_str].
    destruct (JSON_parse env (resp_body response)) as [result|];
      [|now destruct st].
    unfold set_token, bind, get_client, put_client, now, lift, ret,
      Val.get_strict.
    cbn [client ticks sent calls].
    destruct (Val.nullish result); reflexivity.
Qed.

Lemma truthy_not_nullish (v : value) : Val.truthy v = true -> Val.nullish v = false.
Proof. destruct v; (discriminate || reflexivity). Qed.



(** X14.  With a callback as [auth], an authenticated [fetch] hands
    the transport one request and nothing else: its [Authorization]
    header is what the callback gives, in place of any such header of
    the client or of the call, and neither the token cache nor the
    clock is touched. *)
Theorem X14_callback_auth :
  forall (env : Env) (st : State) (input : string) (init : FetchOptions)
         (header : string),
    _auth (client st) = AuthCallback header ->
    truthy_flag (init_withAuth init) = true ->
    let headers :=
      Val.set "Authorization" header
        (Val.spread (_headers (client st)) (init_headers init)) in
    let st' := snd (fetch env input init st) in
    sent st' = (sent st ++ [mkRequest input (with_headers headers init)])%list
    /\ Val.assoc "Authorization" headers = Some header
    /\ client st' = client st
    /\ ticks st' = ticks st.
Proof.
  intros env st input init header Hauth Hon headers st'.
  assert (Hprep : prepare env input init st
                  = (Ok (with_headers headers init),
                     spied st (mkRequest input init))).
  { rewrite prepare_run. unfold authorize. cbn [init_withAuth with_headers].
    rewrite Hon. unfold bind, get_client. cbn [client spied].
    rewrite Hauth. reflexivity. }
  assert (Hst : st' = mkState (client st) (ticks st)
                        (sent st ++ [mkRequest input (with_headers headers init)])%list
                        (calls st ++ [mkRequest input init])%list).
  { unfold st'. rewrite fetch_run, Hprep. cbv zeta. cbn [client spied ticks sent calls].
    destruct (fetcher (client st)); [reflexivity|].
    destruct (platform_fetch env (sent st) _) as [r|e]; [|reflexivity].
    destruct (resp_ok r); [reflexivity|].
    destruct (formatErrorResponse env r); reflexivity. }
  rewrite Hst. repeat split. apply assoc_set_same.
Qed.

Lemma X14_callback_auth_witness :
  sent (snd (fetch Fixture.env "https://cms.example.com/jsonapi/menu_items/main"
               (mkInit None [("Authorization", "none")] None None None (Some true))
               (Fixture.start Site.drupal_callback)))
  = [mkRequest "https://cms.example.com/jsonapi/menu_items/main"
       (mkInit None
          [("Content-Type", "application/vnd.api+json");
           ("Accept", "application/vnd.api+json");
           ("Authorization", "Basic bmV4dDpzM2NyZXQ=")]
          None None None (Some true))].
Proof.
  apply (proj1 (X14_callback_auth Fixture.env (Fixture.start Site.drupal_callback)
                  "https://cms.example.com/jsonapi/menu_items/main"
                  (mkInit None [("Authorization", "none")] None None None
                     (Some true))
                  "Basic bmV4dDpzM2NyZXQ=" eq_refl eq_refl)).
Defined.

Lemma fetch_with_credentials_run (env : Env) (input : string)
  (init : FetchOptions) (st : State) (clientId clientSecret url : string) :
  _auth (client st) = AuthCredentials clientId clientSecret url ->
  truthy_flag (init_withAuth init) = true ->
  fetch env input init st =
  let merged := Val.spread (_headers (client st)) (init_headers init) in
  match getAccessToken env (spied st (mkRequest input init)) with
  | (Throw e, st1) => (Throw e, st1)
  | (Ok token, st1) =>
      let request :=
        mkRequest input
          (if Val.truthy token
           then with_headers
                  (Val.set "Authorization"
                     ("Bearer " ++ Val.to_str (Val.get "access_token" token))
                     merged) init
           else with_headers merged init) in
      let st2 :=
        mkState (client st1) (ticks st1) (sent st1 ++ [request])%list (calls st1) in
      match fetcher (client st1) with
      | Some custom => (custom (sent st1) request, st2)
      | None =>
          match platform_fetch env (sent st1) request with
          | Throw e => (Throw e, st2)
          | Ok response =>
              if resp_ok response then (Ok response, st2)
              else
                match formatErrorResponse env response with
                | Ok message => (Throw (Error (Val.error_message message)), st2)
                | Throw e => (Throw e, st2)
                end
          end
      end
  end.
Proof.
  intros Hauth Hon. rewrite fetch_run, prepare_run.
  unfold authorize. cbn [init_withAuth with_headers]. rewrite Hon.
  unfold bind at 1, get_client. cbv beta iota. cbn [client spied].
  rewrite Hauth. unfold bind.
  destruct (getAccessToken env _) as [[token|e] st1]; [|reflexivity].
  destruct (Val.truthy token); reflexivity.
Qed.

(** X15.  With client credentials as [auth], an authenticated [fetch]
    on a client without a token first requests a token and then sends
    the request with [Authorization: Bearer <access_token>] of the
    token just received; it stores that token.  When the token request
    is answered with a response that is not [ok], [fetch] fails with
    its status text and the request itself is never sent. *)
Theorem X15_bearer_auth :
  forall (env : Env) (st : State) (input : string) (init : FetchOptions)
         (clientId clientSecret url : string) (response : Response),
    _auth (client st) = AuthCredentials clientId clientSecret url ->
    clientId <> "" -> clientSecret <> "" ->
    truthy_flag (init_withAuth init) = true ->
    Val.truthy (_token (client st)) = false ->
    let asked := token_request (client st) env clientId clientSecret url in
    platform_fetch env (sent st) asked = Ok response ->
    let run := fetch env input init st in
    (resp_ok response = false ->
     run = (Throw (Error (resp_statusText response)),
            mkState (client st) (ticks st) (sent st ++ [asked])%list
              (calls st ++ [mkRequest input init])%list))
    /\ (forall token,
          resp_ok response = true ->
          JSON_parse env (resp_body response) = Some token ->
          Val.truthy token = true ->
          let headers :=
            Val.set "Authorization"
              ("Bearer " ++ Val.to_str (Val.get "access_token" token))
              (Val.spread (_headers (client st)) (init_headers init)) in
          sent (snd run)
          = (sent st ++ [asked; mkRequest input (with_headers headers init)])%list
          /\ _token (client (snd run)) = token
          /\ calls (snd run) = (calls st ++ [mkRequest input init])%list).
Proof.
  intros env st input init clientId clientSecret url response Hauth Hid Hsecret
    Hon Hnone asked Hresp run.
  assert (Hrun := fetch_with_credentials_run env input init st clientId
                    clientSecret url Hauth Hon).
  fold run in Hrun.
  rewrite (getAccessToken_run env _ clientId clientSecret url) in Hrun;
    [|exact Hauth|exact Hid|exact Hsecret].
  cbv zeta in Hrun. cbn [client ticks sent calls spied] in Hrun.
  rewrite Hnone in Hrun. cbn [andb] in Hrun. fold asked in Hrun.
  rewrite Hresp in Hrun.
  split.
  - intros Hok. rewrite Hok in Hrun. exact Hrun.
  - intros token Hok Hparse Htoken headers.
    rewrite Hok, Hparse, (truthy_not_nullish token Htoken) in Hrun.
    cbn [client ticks sent calls stored fetcher] in Hrun.
    rewrite Htoken in Hrun. fold headers in Hrun.
    assert (Hst : snd run =
              mkState (stored (client st) token
                         (expiry_of (Date_now env (ticks st)) token))
                (S (ticks st))
                ((sent st ++ [asked])
                 ++ [mkRequest input (with_headers headers init)])%list
                (calls st ++ [mkRequest input init])%list).
    { rewrite Hrun. destruct (fetcher (client st)); [reflexivity|].
      destruct (platform_fetch env (sent st ++ [asked])%list _) as [r|e];
        [|reflexivity].
      destruct (resp_ok r); [reflexivity|].
      destruct (formatErrorResponse env r); reflexivity. }
    rewrite Hst. cbn [sent client calls stored _token].
    rewrite <- app_assoc. repeat split.
Qed.

Lemma X15_bearer_auth_witness :
  sent (snd (fetch Fixture.env "https://cms.example.com/jsonapi/menu_items/main"
               (mkInit None [] None None None (Some true))
               (Fixture.start Fixture.drupal)))
  = [token_request Fixture.drupal Fixture.env "next" "s3cret" DEFAULT_AUTH_URL;
     mkRequest "https://cms.example.com/jsonapi/menu_items/main"
       (mkInit None
          [("Content-Type", "application/vnd.api+json");
           ("Accept", "application/vnd.api+json");
           ("Authorization", "Bearer abc123")]
          None None None (Some true))].
Proof.
  apply (proj1 (proj2 (X15_bearer_auth Fixture.env (Fixture.start Fixture.drupal)
                  "https://cms.example.com/jsonapi/menu_items/main"
                  (mkInit None [] None None None (Some true))
                  "next" "s3cret" DEFAULT_AUTH_URL
                  (mkResponse true 200 "OK" (Some "application/json")
                     (Json.stringify Fixture.token))
                  eq_refl ltac:(discriminate) ltac:(discriminate)
                  eq_refl eq_refl eq_refl)
           Fixture.token eq_refl eq_refl eq_refl)).
Defined.

(** ** Headers *)

Lemma assoc_set_lookup {A : Type} (k k' : string) (v : A) (l : list (string * A)) :
  Val.assoc k (Val.set k' v l) = if String.eqb k k' then Some v else Val.assoc k l.
Proof.
  destruct (String.eqb_spec k k') as [->|Hne].
  - apply assoc_set_same.
  - apply assoc_set_other. congruence.
Qed.

Lemma assoc_absent {A : Type} (k : string) (l : list (string * A)) :
  ~ In k (map fst l) -> Val.assoc k l = None.
Proof.
  induction l as [|[k' v] l IH]; [reflexivity|].
  cbn. intros H. destruct (String.eqb_spec k k') as [->|_].
  - elim H. now left.
  - apply IH. intros Hin. apply H. now right.
Qed.

Lemma spread_lookup {A : Type} (k : string) (a b : list (string * A)) :
  NoDup (map fst b) ->
  Val.assoc k (Val.spread a b)
  = match Val.assoc k b with
    | Some v => Some v
    | None => Val.assoc k a
    end.
Proof.
  revert a. induction b as [|[k' v'] b IH]; intros a Hb; [reflexivity|].
  inversion Hb as [|x l Hnotin Hrest]; subst.
  change (Val.spread a ((k', v') :: b)) with (Val.spread (Val.set k' v' a) b).
  rewrite (IH _ Hrest), assoc_set_lookup. cbn [Val.assoc].
  destruct (String.eqb_spec k k') as [->|_]; [|reflexivity].
  cbn [fst] in Hnotin. now rewrite (assoc_absent k' b Hnotin).
Qed.

(** X16.  The headers of the request that [fetch] hands to the
    transport are the client's headers with the call's own laid over
    them: a header of the call wins, a header of the client is kept
    when the call has none of that name.  The other fields of [init]
    are passed on as they are. *)
Theorem X16_headers_merged :
  forall (env : Env) (st : State) (input : string) (init : FetchOptions),
    truthy_flag (init_withAuth init) = false ->
    NoDup (map fst (init_headers init)) ->
    exists headers,
      sent (snd (fetch env input init st))
      = (sent st ++ [mkRequest input (with_headers headers init)])%list
      /\ forall name,
           Val.assoc name headers
           = match Val.assoc name (init_headers init) with
             | Some v => Some v
             | None => Val.assoc name (_headers (client st))
             end.
Proof.
  intros env st input init Hoff Hnodup.
  exists (Val.spread (_headers (client st)) (init_headers init)).
  split; [now apply fetch_sent_without_auth|].
  intros name. now apply spread_lookup.
Qed.

Lemma X16_headers_merged_witness :
  exists headers,
    sent (snd (fetch Fixture.env "https://cms.example.com/jsonapi"
                 (mkInit None [("Accept", "text/html")] None None None None)
                 (Fixture.start Fixture.drupal)))
    = [mkRequest "https://cms.example.com/jsonapi"
         (mkInit None headers None None None None)]
    /\ Val.assoc "Accept" headers = Some "text/html"
    /\ Val.assoc "Content-Type" headers = Some "application/vnd.api+json".
Proof.
  destruct (X16_headers_merged Fixture.env (Fixture.start Fixture.drupal)
              "https://cms.example.com/jsonapi"
              (mkInit None [("Accept", "text/html")] None None None None)
              eq_refl
              ltac:(repeat constructor; intros [])) as [headers [Hsent Hget]].
  exists headers. split; [exact Hsent|].
  split; [exact (Hget "Accept") | exact (Hget "Content-Type")].
Defined.

(** ** The index *)



(** ** The constructor *)

Lemma set_apiPrefix_slash (apiPrefix : string) :
  Js.starts_with_slash (set_apiPrefix apiPrefix) = true.
Proof.
  unfold set_apiPrefix.
  destruct (Js.starts_with_slash apiPrefix) eqn:E; [exact E | reflexivity].
Qed.

(** X18.  The constructor refuses an empty base URL, and an [auth]
    object without a client id or a client secret.  The client it
    makes has an API prefix that starts with a slash, no token, and,
    when its auth is a credentials object, a client id and a client
    secret that are not empty and the token endpoint [/oauth/token]
    unless another is given. *)
Theorem X18_constructor :
  forall (jsona : value -> Outcome value) (base : string)
         (options : ClientOptions),
    let made := new_DrupalClient jsona base options in
    (base = "" -> made = Throw (Error "The 'baseUrl' param is required."))
    /\ (forall clientId clientSecret url,
          base <> "" ->
          opt_auth options = Some (AuthObject clientId clientSecret url) ->
          Js.truthy_opt clientId && Js.truthy_opt clientSecret = false ->
          made = Throw (Error
            "'clientId' and 'clientSecret' are required for auth. See https://next-drupal.org/docs/client/auth"))
    /\ (forall c,
          made = Ok c ->
          baseUrl c = base /\ base <> ""
          /\ Js.starts_with_slash (apiPrefix c) = true
          /\ _token c = JUndefined
          /\ (forall clientId clientSecret url,
                _auth c = AuthCredentials clientId clientSecret url ->
                clientId <> "" /\ clientSecret <> ""
                /\ exists given,
                     opt_auth options
                     = Some (AuthObject (Some clientId) (Some clientSecret) given)
                     /\ url = or_default DEFAULT_AUTH_URL given)).
Proof.
  intros jsona base options made. unfold made, new_DrupalClient.
  split; [|split].
  - intros ->. reflexivity.
  - intros clientId clientSecret url Hb Hauth Hmissing.
    apply truthy_str_iff in Hb. rewrite Hb, Hauth. cbn [negb set_auth].
    rewrite <- negb_andb, Hmissing. reflexivity.
  - intros c. destruct (Js.truthy_str base) eqn:Hb; [|discriminate].
    cbn [negb].
    destruct (set_auth (opt_auth options)) as [auth|e] eqn:Ea; [|discriminate].
    intros [= <-]. cbn [baseUrl apiPrefix _token _auth].
    split; [reflexivity|].
    split; [now apply truthy_str_iff|].
    split; [apply set_apiPrefix_slash|].
    split; [reflexivity|].
    intros clientId clientSecret url ->.
    unfold set_auth in Ea.
    destruct (opt_auth options) as [[header|[i|] [s|] u]|]; cbn in Ea;
      try discriminate.
    + destruct (Js.truthy_str i) eqn:Ei; [|discriminate].
      destruct (Js.truthy_str s) eqn:Es; [|discriminate].
      cbn in Ea. injection Ea as <- <- <-.
      split; [now apply truthy_str_iff|].
      split; [now apply truthy_str_iff|].
      exists u. split; reflexivity.
    + destruct (Js.truthy_str i); discriminate.
Qed.

Lemma X18_constructor_witness :
  new_DrupalClient Fixture.data_of "" Site.options
  = Throw (Error "The 'baseUrl' param is required.")
  /\ exists c,
       new_DrupalClient Fixture.data_of Fixture.site Site.options = Ok c
       /\ baseUrl c = Fixture.site
       /\ Js.starts_with_slash (apiPrefix c) = true
       /\ _token c = JUndefined.
Proof.
  split.
  - apply (proj1 (X18_constructor Fixture.data_of "" Site.options) eq_refl).
  - eexists. split; [reflexivity|].
    destruct (proj2 (proj2 (X18_constructor Fixture.data_of Fixture.site
                              Site.options)) _ eq_refl)
      as [H1 [_ [H2 [H3 _]]]].
    split; [exact H1|]. split; [exact H2 | exact H3].
Defined.

(** ** Search indexes and views *)






(** ** What [getResource] returns *)

(** X21.  With [useDefaultResourceTypeEntry], once the response of
    [getResource] has arrived: a body that is not JSON fails with a
    [SyntaxError]; with [deserialize: false] the document is returned
    as it is; otherwise a truthy document is handed to the formatter
    and a falsy one ([null]) gives [null] without the formatter being
    called. *)
Theorem X21_getResource_result :
  forall (cfg : Config) (st : State) (id bundle uuid : string)
         (options : ResourceOptions) (response : Response) (st1 : State),
    useDefaultResourceTypeEntry cfg = true ->
    has_dash id = false -> has_dash bundle = false ->
    let c := client st in
    baseUrl c <> "" -> Js.starts_with_slash (baseUrl c) = false ->
    let params := or_default [] (o_params options) in
    Val.has_key "getQueryObject" params = false ->
    let entry := default_entry c id bundle (entry_locale_of options) in
    let url :=
      Url.toString
        (Url.set_search (Qs.stringify (JObj params))
           (Url.parse (entry ++ "/" ++ uuid))) in
    let init :=
      mkInit None [] None None None
        (Some (or_default (withAuth c) (o_withAuth options))) in
    fetch (platform cfg) url init st = (Ok response, st1) ->
    let run := getResource cfg (id ++ "--" ++ bundle) uuid options st in
    snd run = st1
    /\ (JSON_parse (platform cfg) (resp_body response) = None ->
        fst run = Throw SyntaxError)
    /\ (forall json,
          JSON_parse (platform cfg) (resp_body response) = Some json ->
          fst run
          = if or_default true (o_deserialize options)
            then if Val.truthy json
                 then formatter_deserialize (client st1) json
                 else Ok JNull
            else Ok json).
Proof.
  intros cfg st id bundle uuid options response st1 Hd Hi Hb c Hne Hs params
    Hq entry url init Hf run.
  assert (Hrun : run =
            match JSON_parse (platform cfg) (resp_body response) with
            | None => (Throw SyntaxError, st1)
            | Some json =>
                (deserialized (client st1)
                   (or_default true (o_deserialize options)) json, st1)
            end).
  { unfold run, getResource, bind at 1, get_client. cbv beta iota zeta.
    unfold bind at 1.
    rewrite (default_entry_run cfg st id bundle (entry_locale_of options)
               Hd Hi Hb).
    unfold bind at 1, lift at 1. cbn [Val.to_str].
    fold c. fold entry.
    unfold buildUrl. fold params. rewrite Hq.
    unfold entry. rewrite default_entry_no_slash by assumption.
    cbn [Val.truthy]. fold entry. fold url. fold init.
    unfold bind at 1. rewrite Hf.
    unfold bind at 1, lift at 1, response_json, parse_json. cbn [Val.to_str].
    destruct (JSON_parse (platform cfg) (resp_body response)) as [json|];
      reflexivity. }
  split; [|split].
  - rewrite Hrun.
    destruct (JSON_parse (platform cfg) (resp_body response)); reflexivity.
  - intros Hp. now rewrite Hrun, Hp.
  - intros json Hp. rewrite Hrun, Hp. unfold deserialized, deserialize.
    cbn [fst].
    destruct (or_default true (o_deserialize options)); [|reflexivity].
    destruct (Val.truthy json); reflexivity.
Qed.

Lemma X21_getResource_result_witness :
  fst (getResource Site.config_default_entry "node--article" "8f1b"
         default_options (Fixture.start Fixture.drupal))
  = Ok (Val.get "data" Fixture.article).
Proof.
  eassert (E : fetch Site.env
                 "https://cms.example.com/jsonapi/node/article/8f1b"
                 (mkInit None [] None None None (Some false))
                 (Fixture.start Fixture.drupal) = (Ok _, _))
    by (vm_compute; reflexivity).
  apply (proj2 (proj2 (X21_getResource_result Site.config_default_entry
                         (Fixture.start Fixture.drupal) "node" "article" "8f1b"
                         default_options _ _ eq_refl eq_refl eq_refl
                         ltac:(discriminate) eq_refl eq_refl E))
           Fixture.article eq_refl).
Defined.
